(** * FS25 farming database: the request handlers of [app.py]

    A shallow embedding of the handlers of [src/app.py] that write the
    planting, harvest, storage and location tables, over the schema created by
    [src/database/setup.py], [add_planting_tables.py] and
    [init_crop_storage.py].

    - Python's [float] is IEEE binary64: it is modelled by Rocq's primitive
      [float], with the same operations.
    - A handler is a function from the database file (absent, or holding the
      tables) and the request to the database file after the request, the
      notices flashed and the response.  A handler that leaves without
      [conn.commit()] leaves the file as it found it.
    - SQLite's [NULL] is [None]; a [REAL] column holds an [option float], a
      [TEXT] column an [option string] ([string] when declared [NOT NULL]). *)

From Stdlib Require Import Floats ZArith List String Bool Lia.
From Stdlib Require Import Orders Mergesort Sorted Permutation.
Import ListNotations.

Local Open Scope bool_scope.

(** ** Python: exceptions and the arithmetic the handlers use *)

Inductive exn : Type :=
| ValueError          (* float() of a string that is no number *)
| TypeError           (* float(None), None + x, format of None *)
| ZeroDivisionError   (* x / 0 *)
| IntegrityError      (* sqlite3: NOT NULL constraint failed *)
| InterfaceError.     (* sqlite3: a parameter of unsupported type *)

Inductive result (A : Type) : Type :=
| Ok (a : A)
| Raise (e : exn).
Arguments Ok {A} a.
Arguments Raise {A} e.

Definition bind {A B : Type} (m : result A) (k : A -> result B) : result B :=
  match m with
  | Ok a => k a
  | Raise e => Raise e
  end.

Declare Scope py_scope.
Delimit Scope py_scope with py.
Notation "x <- m ;; k" := (bind m (fun x => k))
  (at level 61, m at next level, right associativity) : py_scope.
Notation "' pat <- m ;; k" := (bind m (fun x => match x with pat => k end))
  (at level 61, pat pattern, m at next level, right associativity) : py_scope.

(** [x / y] on Python floats: raises on a zero divisor, of either sign. *)
Definition truediv (x y : float) : result float :=
  if (y =? 0)%float then Raise ZeroDivisionError else Ok (x / y)%float.

(** [x > 0]. *)
Definition gt0 (x : float) : bool := (0 <? x)%float.

(** [0 <= x], the reading of a non-negative amount. *)
Definition nonneg (x : float) : bool := (0 <=? x)%float.

(** [v or 0] on a value read from a REAL column: [None] and zero are falsy. *)
Definition or_zero (v : option float) : float :=
  match v with
  | None => 0%float
  | Some f => if (f =? 0)%float then 0%float else f
  end.

(** [a != b] between a column value (possibly [None]) and a float. *)
Definition py_ne (a : option float) (b : float) : bool :=
  match a with
  | None => true
  | Some x => negb (x =? b)%float
  end.

(** [s or None], and the truth value of an optional string. *)
Definition or_none (s : option string) : option string :=
  match s with
  | Some EmptyString => None
  | _ => s
  end.

Definition truthy (s : option string) : bool :=
  match or_none s with
  | Some _ => true
  | None => false
  end.

(** ** JSON bodies and HTML forms *)

(** The values of a JSON object as Flask hands them over.  Numbers are taken
    at their float value; lists and objects are not told apart. *)
Inductive json : Type :=
| JNull
| JBool (b : bool)
| JNumber (f : float)
| JString (s : string)
| JCompound.

Definition body : Type := list (string * json).
Definition form : Type := list (string * string).

Fixpoint lookup {V : Type} (k : string) (d : list (string * V)) : option V :=
  match d with
  | [] => None
  | (k', v) :: rest => if String.eqb k' k then Some v else lookup k rest
  end.

(** [request.json.get(k)]: a missing key reads as [None], like [null]. *)
Definition json_get (k : string) (b : body) : json :=
  match lookup k b with
  | Some v => v
  | None => JNull
  end.

(** ** SQLite: values, binding and statements *)

(** A Python float bound to a statement: SQLite keeps NaN as NULL. *)
Definition sql_real (f : float) : option float :=
  if is_nan f then None else Some f.

(** [a + b], [a * b] and [a / b] in a statement: NULL if an operand is NULL,
    if the result is NaN, or if the divisor is zero. *)
Definition sql_add (a b : option float) : option float :=
  match a, b with
  | Some x, Some y => sql_real (x + y)
  | _, _ => None
  end.

Definition sql_mul (a b : option float) : option float :=
  match a, b with
  | Some x, Some y => sql_real (x * y)
  | _, _ => None
  end.

Definition sql_div (a b : option float) : option float :=
  match a, b with
  | Some x, Some y => if (y =? 0)%float then None else sql_real (x / y)
  | _, _ => None
  end.

(** [SUM(col)]: NULL over no non-NULL value, else the values added in row
    order from 0.0. *)
Definition non_null {A : Type} (l : list (option A)) : list A :=
  flat_map (fun v => match v with Some x => [x] | None => [] end) l.

Definition sql_sum (l : list (option float)) : option float :=
  match non_null l with
  | [] => None
  | xs => sql_real (fold_left PrimFloat.add xs 0%float)
  end.

(** [NOT NULL]: the statement fails on NULL. *)
Definition not_null {A : Type} (v : option A) : result A :=
  match v with
  | Some a => Ok a
  | None => Raise IntegrityError
  end.

Definition sql_select {R : Type} (where_ : R -> bool) (t : list R) : list R :=
  filter where_ t.

Definition sql_delete {R : Type} (where_ : R -> bool) (t : list R) : list R :=
  filter (fun r => negb (where_ r)) t.

Definition sql_update {R : Type} (where_ : R -> bool) (set : R -> R)
    (t : list R) : list R :=
  map (fun r => if where_ r then set r else r) t.

Definition fetchone {R : Type} (rows : list R) : option R := hd_error rows.

(** The rowid of an inserted row: one more than the largest in the table.
    (AUTOINCREMENT moreover never reuses the id of a deleted last row; no
    handler below reads the difference.) *)
Definition next_id (ids : list Z) : Z :=
  (fold_right Z.max 0 ids + 1)%Z.

(** A TEXT column against a bound parameter. *)
Definition text_eq (col : option string) (param : option string) : bool :=
  match col, param with
  | Some a, Some b => String.eqb a b
  | _, _ => false
  end.

(** ** The schema

    One module per table, named after it; a row keeps the primary key and the
    columns the handlers below read or write.  Foreign keys are declared by
    the schema but not enforced: [get_db_connection] never turns
    [PRAGMA foreign_keys] on. *)

Module Fields.
Record row : Type := {
    field_id : string;                     (* TEXT PRIMARY KEY *)
    field_name : string;                   (* TEXT NOT NULL *)
    size_hectares : option float
}.
End Fields.

Module CropSeasons.
Record row : Type := {
    season_id : Z;
    field_id : string;                     (* REFERENCES fields *)
    crop_year : Z;
    crop_type : string
}.
End CropSeasons.

Module FieldOperations.
Record row : Type := {
    operation_id : Z;
    field_id : string;                     (* REFERENCES fields *)
    season_id : option Z;
    operation_date : string;
    operation_type : string
}.
End FieldOperations.

Module WeatherEvents.
Record row : Type := {
    event_id : Z;
    field_id : string;                     (* REFERENCES fields *)
    season_id : option Z;
    event_date : string;
    weather_type : string
}.
End WeatherEvents.

Module PlantingRecords.
Record row : Type := {
    planting_id : Z;
    field_id : string;                     (* NOT NULL REFERENCES fields *)
    crop_type : string;                    (* NOT NULL *)
    variety : option string;
    planting_date : string;                (* NOT NULL *)
    planting_season : option string;
    expected_harvest_date : option string;
    planted_area_ha : option float;
    seed_cost : option float;
    seed_rate : option string;
    fertilizer_cost : option float;
    lime_cost : option float;
    labor_cost : option float;
    equipment_cost : option float;
    fuel_cost : option float;
    other_costs : option float;
    total_planting_cost : option float;
    cost_per_hectare : option float;
    planting_method : option string;
    soil_temp_c : option string;           (* kept as submitted *)
    soil_moisture : option string;
    weather_conditions : option string;
    operator_name : option string;
    notes : option string;
    status : option string
}.
End PlantingRecords.

Module FieldMaintenance.
Record row : Type := {
    maintenance_id : Z;
    field_id : string;                     (* NOT NULL REFERENCES fields *)
    planting_id : option Z;                (* REFERENCES planting_records *)
    maintenance_date : string;
    maintenance_type : string;
    total_cost : option float
}.
End FieldMaintenance.

Module HarvestRecords.
Record row : Type := {
    harvest_id : Z;
    planting_id : Z;                       (* NOT NULL *)
    field_id : string;                     (* NOT NULL REFERENCES fields *)
    harvest_date : string;                 (* NOT NULL *)
    harvest_season : option string;
    total_yield_tonnes : float;            (* NOT NULL *)
    yield_per_hectare : option float;
    harvested_area_ha : option float;
    moisture_percent : option float;
    quality_grade : option string;
    test_weight : option float;
    protein_percent : option float;
    damage_percent : option float;
    market_price_per_tonne : option float;
    price_premium : option float;
    buyer_name : option string;
    sale_location : option string;
    harvest_method : option string;
    equipment_used : option string;
    operator_name : option string;
    weather_conditions : option string;
    harvest_labor_cost : option float;
    harvest_equipment_cost : option float;
    harvest_fuel_cost : option float;
    transport_cost : option float;
    drying_cost : option float;
    storage_cost : option float;
    other_harvest_costs : option float;
    total_harvest_cost : option float;
    gross_revenue : option float;
    total_costs : option float;
    net_profit : option float;
    profit_per_hectare : option float;
    roi_percent : option float;
    break_even_price : option float;
    notes : option string
}.
End HarvestRecords.

Module CropStorage.
Record row : Type := {
    storage_id : Z;
    crop_name : string;                    (* TEXT NOT NULL UNIQUE *)
    crop_category : option string;
    quantity_stored : option float;
    storage_capacity : option float;
    current_market_price : option float;
    sale_location : option string;
    last_price_update : option string;
    notes : option string;
    updated_date : option string
}.
End CropStorage.

Module SaleLocations.
Record row : Type := {
    location_id : Z;                       (* INTEGER PRIMARY KEY *)
    location_name : string;                (* NOT NULL *)
    location_type : option string
}.
End SaleLocations.

Module PriceHistory.
Record row : Type := {
    price_id : Z;
    crop_name : string;                    (* NOT NULL *)
    price : float;                         (* NOT NULL *)
    sale_location : option string;
    price_date : string                    (* NOT NULL *)
}.
End PriceHistory.

Record Database : Type := {
  fields : list Fields.row;
  crop_seasons : list CropSeasons.row;
  field_operations : list FieldOperations.row;
  weather_events : list WeatherEvents.row;
  planting_records : list PlantingRecords.row;
  field_maintenance : list FieldMaintenance.row;
  harvest_records : list HarvestRecords.row;
  crop_storage : list CropStorage.row;
  sale_locations : list SaleLocations.row;
  price_history : list PriceHistory.row
}.

Definition set_fields (t : list Fields.row) (d : Database) : Database :=
  {| fields := t; crop_seasons := crop_seasons d;
     field_operations := field_operations d; weather_events := weather_events d;
     planting_records := planting_records d;
     field_maintenance := field_maintenance d;
     harvest_records := harvest_records d; crop_storage := crop_storage d;
     sale_locations := sale_locations d; price_history := price_history d |}.

Definition set_crop_seasons (t : list CropSeasons.row) (d : Database) : Database :=
  {| fields := fields d; crop_seasons := t;
     field_operations := field_operations d; weather_events := weather_events d;
     planting_records := planting_records d;
     field_maintenance := field_maintenance d;
     harvest_records := harvest_records d; crop_storage := crop_storage d;
     sale_locations := sale_locations d; price_history := price_history d |}.

Definition set_field_operations (t : list FieldOperations.row) (d : Database)
    : Database :=
  {| fields := fields d; crop_seasons := crop_seasons d;
     field_operations := t; weather_events := weather_events d;
     planting_records := planting_records d;
     field_maintenance := field_maintenance d;
     harvest_records := harvest_records d; crop_storage := crop_storage d;
     sale_locations := sale_locations d; price_history := price_history d |}.

Definition set_weather_events (t : list WeatherEvents.row) (d : Database)
    : Database :=
  {| fields := fields d; crop_seasons := crop_seasons d;
     field_operations := field_operations d; weather_events := t;
     planting_records := planting_records d;
     field_maintenance := field_maintenance d;
     harvest_records := harvest_records d; crop_storage := crop_storage d;
     sale_locations := sale_locations d; price_history := price_history d |}.

Definition set_planting_records (t : list PlantingRecords.row) (d : Database)
    : Database :=
  {| fields := fields d; crop_seasons := crop_seasons d;
     field_operations := field_operations d; weather_events := weather_events d;
     planting_records := t;
     field_maintenance := field_maintenance d;
     harvest_records := harvest_records d; crop_storage := crop_storage d;
     sale_locations := sale_locations d; price_history := price_history d |}.

Definition set_harvest_records (t : list HarvestRecords.row) (d : Database)
    : Database :=
  {| fields := fields d; crop_seasons := crop_seasons d;
     field_operations := field_operations d; weather_events := weather_events d;
     planting_records := planting_records d;
     field_maintenance := field_maintenance d;
     harvest_records := t; crop_storage := crop_storage d;
     sale_locations := sale_locations d; price_history := price_history d |}.

Definition set_crop_storage (t : list CropStorage.row) (d : Database) : Database :=
  {| fields := fields d; crop_seasons := crop_seasons d;
     field_operations := field_operations d; weather_events := weather_events d;
     planting_records := planting_records d;
     field_maintenance := field_maintenance d;
     harvest_records := harvest_records d; crop_storage := t;
     sale_locations := sale_locations d; price_history := price_history d |}.

Definition set_sale_locations (t : list SaleLocations.row) (d : Database)
    : Database :=
  {| fields := fields d; crop_seasons := crop_seasons d;
     field_operations := field_operations d; weather_events := weather_events d;
     planting_records := planting_records d;
     field_maintenance := field_maintenance d;
     harvest_records := harvest_records d; crop_storage := crop_storage d;
     sale_locations := t; price_history := price_history d |}.

Definition set_price_history (t : list PriceHistory.row) (d : Database)
    : Database :=
  {| fields := fields d; crop_seasons := crop_seasons d;
     field_operations := field_operations d; weather_events := weather_events d;
     planting_records := planting_records d;
     field_maintenance := field_maintenance d;
     harvest_records := harvest_records d; crop_storage := crop_storage d;
     sale_locations := sale_locations d; price_history := t |}.

(** The database file [data/fs25_farming.db]: absent, or holding the tables. *)
Definition World : Type := option Database.

(** ** Responses *)

(** [flash(message, category)]: the message by its kind and the values put
    into it. *)
Inductive category : Type := success | error.

Inductive notice : Type :=
| DatabaseNotFound
| FieldNotFound
| FieldDeleted (field_name : string)
| LocationNotFound
| LocationInUse (location_name : string) (count : nat)
| LocationDeleted (location_name : string)
| PlantingAdded (crop_type : string)
| ErrorAddingPlanting (e : exn)
| PlantingNotFound
| HarvestRecorded (net_profit roi_percent : float)
| ErrorRecordingHarvest (e : exn).

Definition category_of (n : notice) : category :=
  match n with
  | FieldDeleted _ | LocationDeleted _ | PlantingAdded _ | HarvestRecorded _ _ =>
      success
  | _ => error
  end.

(** The ['error'] member of a failed JSON reply. *)
Inductive error_text : Type :=
| ConnectionFailed          (* 'Database connection failed' *)
| InvalidField              (* 'Invalid field' *)
| InvalidNumericValue       (* 'Invalid numeric value' *)
| Str (e : exn).            (* str(e) *)

(** [f"${v:,.0f}"] and the literal ["$0"]. *)
Inductive money : Type :=
| Dollars (v : float)
| DollarZero.

Inductive json_reply : Type :=
| JsonError (err : error_text)
    (* {'success': False, 'error': err} *)
| JsonQuantity (total_value : option float)
    (* {'success': True, 'total_value': ...} *)
| JsonField (total_value capacity_used : option float) (formatted_value : money).
    (* {'success': True, 'total_value', 'capacity_used', 'formatted_value'} *)

Definition is_success (j : json_reply) : bool :=
  match j with
  | JsonError _ => false
  | _ => true
  end.

Inductive response : Type :=
| Redirect (endpoint : string) (arg : option Z)
| Render (template : string)
| Jsonify (j : json_reply).

Record outcome : Type := {
  world : World;
  flashed : list notice;
  reply : response
}.

Inductive http_method : Type := GET | POST.

(** [datetime.now()] and [datetime.now().date()], as sqlite3 stores them. *)
Record clock : Type := {
  now : string;
  today : string
}.

(** [get_db_connection()] *)
Definition get_db_connection (w : World) : option Database * list notice :=
  match w with
  | Some conn => (Some conn, [])
  | None => (None, [DatabaseNotFound])
  end.

Local Open Scope string_scope.

(** ** Field deletion *)

(** [delete_field(field_id)] *)
Definition delete_field (w : World) (field_id : string) : outcome :=
  match get_db_connection w with
  | (None, fl) => {| world := w; flashed := fl; reply := Redirect "index" None |}
  | (Some conn, fl) =>
    match fetchone (sql_select (fun f => String.eqb (Fields.field_id f) field_id)
                      (fields conn)) with
    | None =>
      {| world := w; flashed := fl ++ [FieldNotFound];
         reply := Redirect "fields_list" None |}
    | Some field =>
      let conn := set_crop_seasons
        (sql_delete (fun r => String.eqb (CropSeasons.field_id r) field_id)
           (crop_seasons conn)) conn in
      let conn := set_field_operations
        (sql_delete (fun r => String.eqb (FieldOperations.field_id r) field_id)
           (field_operations conn)) conn in
      let conn := set_weather_events
        (sql_delete (fun r => String.eqb (WeatherEvents.field_id r) field_id)
           (weather_events conn)) conn in
      let conn := set_fields
        (sql_delete (fun r => String.eqb (Fields.field_id r) field_id)
           (fields conn)) conn in
      {| world := Some conn;
         flashed := fl ++ [FieldDeleted (Fields.field_name field)];
         reply := Redirect "fields_list" None |}
    end
  end.

(** The rows of the database that hold a reference to a field: every table
    whose schema declares [field_id ... REFERENCES fields]. *)
Definition references_to (field_id : string) (d : Database) : nat :=
  List.length (sql_select (fun r => String.eqb (CropSeasons.field_id r) field_id)
            (crop_seasons d))
  + List.length (sql_select (fun r => String.eqb (FieldOperations.field_id r) field_id)
              (field_operations d))
  + List.length (sql_select (fun r => String.eqb (WeatherEvents.field_id r) field_id)
              (weather_events d))
  + List.length (sql_select (fun r => String.eqb (PlantingRecords.field_id r) field_id)
              (planting_records d))
  + List.length (sql_select (fun r => String.eqb (FieldMaintenance.field_id r) field_id)
              (field_maintenance d))
  + List.length (sql_select (fun r => String.eqb (HarvestRecords.field_id r) field_id)
              (harvest_records d)).

(** ** Sale locations *)

(** [delete_location(location_id)] *)
Definition delete_location (w : World) (location_id : Z) : outcome :=
  match get_db_connection w with
  | (None, fl) =>
    {| world := w; flashed := fl; reply := Redirect "manage_locations" None |}
  | (Some conn, fl) =>
    match fetchone (sql_select
                      (fun l => Z.eqb (SaleLocations.location_id l) location_id)
                      (sale_locations conn)) with
    | None =>
      {| world := w; flashed := fl ++ [LocationNotFound];
         reply := Redirect "manage_locations" None |}
    | Some location =>
      let name := SaleLocations.location_name location in
      let usage_count := List.length
        (sql_select (fun c => text_eq (CropStorage.sale_location c) (Some name))
           (crop_storage conn)) in
      if (0 <? usage_count)%nat then
        {| world := w; flashed := fl ++ [LocationInUse name usage_count];
           reply := Redirect "manage_locations" None |}
      else
        let conn := set_sale_locations
          (sql_delete (fun l => Z.eqb (SaleLocations.location_id l) location_id)
             (sale_locations conn)) conn in
        {| world := Some conn; flashed := fl ++ [LocationDeleted name];
           reply := Redirect "manage_locations" None |}
    end
  end.

(** A crop of the storage table sells at the location. *)
Definition in_use (d : Database) (l : SaleLocations.row) : Prop :=
  exists c, In c (crop_storage d)
    /\ CropStorage.sale_location c = Some (SaleLocations.location_name l).

(** ** Notices and answers of more handlers

    The handlers below flash notices of their own; they answer with a value
    of the type their caller reads. *)

Inductive note : Type :=
| StorageUpdated (crop_name : string)
| ErrorUpdatingStorage (crop_name : string) (e : exn)
| CropNotFound
| OperationDeleted
| MaintenanceRecorded (maintenance_type : string)
| ErrorAddingMaintenance (e : exn).

Definition note_category (n : note) : category :=
  match n with
  | StorageUpdated _ | OperationDeleted | MaintenanceRecorded _ => success
  | _ => error
  end.

Record served (A : Type) : Type := {
  file : World;
  notes : list (notice + note);
  answer : A
}.
Arguments file {A} _.
Arguments notes {A} _.
Arguments answer {A} _.

(** ** Sorting names

    [sorted(names)] in Python and [ORDER BY] on a text column in SQLite both
    order strings by their characters' codes.  Strings that compare equal are
    the same string, so the sorted list does not depend on the algorithm; it
    is computed here by merge sort. *)

Module StringOrder <: TotalLeBool.
Definition t : Type := string.
Definition leb : string -> string -> bool := String.leb.
Definition leb_total : forall x y, leb x y = true \/ leb y x = true :=
  String.leb_total.
End StringOrder.

Module StringSort := Sort StringOrder.

Definition sorted (names : list string) : list string := StringSort.sort names.

(** [SELECT DISTINCT] on a text column. *)
Definition distinct (names : list string) : list string :=
  nodup string_dec names.

(** ** Readings of the library functions used to run the handlers

    The handlers below take three library functions as parameters.  These
    readings of them serve to run a handler on a concrete request: [float()]
    on a string of decimal digits, and stand-ins for the two functions that
    such a run does not reach. *)

Definition digit_value (c : Ascii.ascii) : option float :=
  let n := Ascii.nat_of_ascii c in
  if ((48 <=? n) && (n <=? 57))%nat
  then Some (PrimFloat.of_uint63 (Uint63.of_Z (Z.of_nat (n - 48))))
  else None.

Fixpoint digits_value (acc : float) (s : string) : option float :=
  match s with
  | EmptyString => Some acc
  | String c rest =>
    match digit_value c with
    | Some d => digits_value (acc * 10 + d)%float rest
    | None => None
    end
  end.

Definition digits_float (s : string) : option float :=
  match s with
  | EmptyString => None
  | _ => digits_value 0%float s
  end.

Definition unrendered (_ : float) : string := "".

Definition unrounded (x : float) : float := x.

(** ** The handlers *)

Section Handlers.

(** Python's [float(s)] on a string: [None] where it raises [ValueError]. *)
Variable float_of_str : string -> option float.

(** The text SQLite gives a number that meets a TEXT column. *)
Variable text_of_number : float -> string.

(** SQLite's [ROUND(x, 1)]. *)
Variable sql_round1 : float -> float.

(** [float(v)] on a value of a JSON body. *)
Definition py_float (v : json) : result float :=
  match v with
  | JNull => Raise TypeError
  | JBool b => Ok (if b then 1%float else 0%float)
  | JNumber f => Ok f
  | JString s =>
    match float_of_str s with
    | Some f => Ok f
    | None => Raise ValueError
    end
  | JCompound => Raise TypeError
  end.

(** A value of a JSON body bound where a TEXT column is written or compared. *)
Definition bind_text (v : json) : result (option string) :=
  match v with
  | JNull => Ok None
  | JBool b => Ok (Some (if b then "1" else "0"))
  | JNumber f => Ok (Some (text_of_number f))
  | JString s => Ok (Some s)
  | JCompound => Raise InterfaceError
  end.

(** [float(request.form.get(k, default))]; [default] is what [float] makes of
    the default. *)
Definition form_float (k : string) (default : result float) (f : form)
    : result float :=
  match lookup k f with
  | Some s =>
    match float_of_str s with
    | Some x => Ok x
    | None => Raise ValueError
    end
  | None => default
  end.

(** [float(request.form.get(k)) if request.form.get(k) else None] *)
Definition form_float_opt (k : string) (f : form) : result (option float) :=
  if truthy (lookup k f)
  then (x <- form_float k (Raise TypeError) f ;; Ok (Some x))%py
  else Ok None.

(** [request.form.get(k, '')] *)
Definition form_text (k : string) (f : form) : option string :=
  match lookup k f with
  | Some s => Some s
  | None => Some ""
  end.

(** *** Storage: quantity and field updates *)

Definition with_quantity (q : option float) (stamp : option string)
    (r : CropStorage.row) : CropStorage.row :=
  {| CropStorage.storage_id := CropStorage.storage_id r;
     CropStorage.crop_name := CropStorage.crop_name r;
     CropStorage.crop_category := CropStorage.crop_category r;
     CropStorage.quantity_stored := q;
     CropStorage.storage_capacity := CropStorage.storage_capacity r;
     CropStorage.current_market_price := CropStorage.current_market_price r;
     CropStorage.sale_location := CropStorage.sale_location r;
     CropStorage.last_price_update := CropStorage.last_price_update r;
     CropStorage.notes := CropStorage.notes r;
     CropStorage.updated_date := stamp |}.

(** [WHERE crop_name = ?] *)
Definition named (name : option string) (r : CropStorage.row) : bool :=
  text_eq (Some (CropStorage.crop_name r)) name.

(** [update_quantity()] *)
Definition update_quantity (w : World) (t : clock) (req : body) : outcome :=
  let crop_name := json_get "crop_name" req in
  match py_float (match lookup "quantity" req with
                  | Some v => v
                  | None => JNumber 0
                  end) with
  | Raise e => {| world := w; flashed := []; reply := Jsonify (JsonError (Str e)) |}
  | Ok quantity =>
    match get_db_connection w with
    | (None, fl) =>
      {| world := w; flashed := fl; reply := Jsonify (JsonError ConnectionFailed) |}
    | (Some conn, fl) =>
      match bind_text crop_name with
      | Raise e =>
        {| world := w; flashed := fl; reply := Jsonify (JsonError (Str e)) |}
      | Ok name =>
        let conn := set_crop_storage
          (sql_update (named name)
             (with_quantity (sql_real quantity) (Some (now t)))
             (crop_storage conn)) conn in
        let crop := fetchone (sql_select (named name) (crop_storage conn)) in
        {| world := Some conn; flashed := fl;
           reply := Jsonify (JsonQuantity
             match crop with
             | Some r => sql_mul (CropStorage.quantity_stored r)
                           (CropStorage.current_market_price r)
             | None => Some 0%float
             end) |}
      end
    end
  end.

Definition allowed_fields : list string :=
  ["quantity_stored"; "storage_capacity"; "current_market_price";
   "sale_location"; "notes"].

Definition numeric_fields : list string :=
  ["quantity_stored"; "storage_capacity"; "current_market_price"].

(** [field_name in names]: a value that is no string equals none of them. *)
Definition member (field_name : json) (names : list string) : bool :=
  match field_name with
  | JString s => existsb (String.eqb s) names
  | _ => false
  end.

(** The new value once converted: a float, or the value as received. *)
Inductive new_value : Type :=
| Numeric (x : float)
| Received (v : json).

(** Lines 844 to 848 of [update_storage_field]: the numeric fields take
    [float(new_value)]. *)
Definition convert (field_name value : json) : result new_value :=
  if member field_name numeric_fields
  then (x <- py_float value ;; Ok (Numeric x))%py
  else Ok (Received value).

(** [SET {field_name} = ?, updated_date = ?] on one row. *)
Definition set_field (field_name : string) (x : option float) (s : option string)
    (stamp : option string) (r : CropStorage.row) : CropStorage.row :=
  {| CropStorage.storage_id := CropStorage.storage_id r;
     CropStorage.crop_name := CropStorage.crop_name r;
     CropStorage.crop_category := CropStorage.crop_category r;
     CropStorage.quantity_stored :=
       if String.eqb field_name "quantity_stored" then x
       else CropStorage.quantity_stored r;
     CropStorage.storage_capacity :=
       if String.eqb field_name "storage_capacity" then x
       else CropStorage.storage_capacity r;
     CropStorage.current_market_price :=
       if String.eqb field_name "current_market_price" then x
       else CropStorage.current_market_price r;
     CropStorage.sale_location :=
       if String.eqb field_name "sale_location" then s
       else CropStorage.sale_location r;
     CropStorage.last_price_update := CropStorage.last_price_update r;
     CropStorage.notes :=
       if String.eqb field_name "notes" then s else CropStorage.notes r;
     CropStorage.updated_date := stamp |}.

(** [INSERT INTO price_history (crop_name, price, price_date)] *)
Definition insert_price (crop_name : option string) (price : option float)
    (price_date : string) (d : Database) : result Database :=
  (crop_name <- not_null crop_name ;;
   price <- not_null price ;;
   Ok (set_price_history
         (price_history d ++
          [{| PriceHistory.price_id :=
                next_id (map PriceHistory.price_id (price_history d));
              PriceHistory.crop_name := crop_name;
              PriceHistory.price := price;
              PriceHistory.sale_location := None;
              PriceHistory.price_date := price_date |}]) d))%py.

(** The statements of [update_storage_field] between connecting and
    [conn.commit()]: the database to commit and the row read back. *)
Definition update_storage_statements (conn : Database) (t : clock)
    (crop_name : json) (field_name : string) (value : new_value)
    : result (Database * option CropStorage.row) :=
  (name <- bind_text crop_name ;;
   conn <-
     match value with
     | Numeric x =>
       if String.eqb field_name "current_market_price" then
         match fetchone (sql_select (named name) (crop_storage conn)) with
         | Some old_price =>
           if py_ne (CropStorage.current_market_price old_price) x
           then insert_price name (sql_real x) (today t) conn
           else Ok conn
         | None => Ok conn
         end
       else Ok conn
     | Received _ => Ok conn
     end ;;
   '(x, s) <-
     match value with
     | Numeric x => Ok (sql_real x, None)
     | Received v => (s <- bind_text v ;; Ok (None, s))
     end ;;
   let conn := set_crop_storage
     (sql_update (named name) (set_field field_name x s (Some (now t)))
        (crop_storage conn)) conn in
   Ok (conn, fetchone (sql_select (named name) (crop_storage conn))))%py.

(** [update_storage_field()] *)
Definition update_storage_field (w : World) (t : clock) (req : body) : outcome :=
  let crop_name := json_get "crop_name" req in
  let field_name := json_get "field_name" req in
  let value := json_get "value" req in
  if negb (member field_name allowed_fields) then
    {| world := w; flashed := []; reply := Jsonify (JsonError InvalidField) |}
  else
    match get_db_connection w with
    | (None, fl) =>
      {| world := w; flashed := fl; reply := Jsonify (JsonError ConnectionFailed) |}
    | (Some conn, fl) =>
      match convert field_name value with
      | Raise ValueError =>
        {| world := w; flashed := fl;
           reply := Jsonify (JsonError InvalidNumericValue) |}
      | Raise e =>
        {| world := w; flashed := fl; reply := Jsonify (JsonError (Str e)) |}
      | Ok value =>
        match update_storage_statements conn t crop_name
                match field_name with JString s => s | _ => "" end value with
        | Raise e =>
          {| world := w; flashed := fl; reply := Jsonify (JsonError (Str e)) |}
        | Ok (conn, crop) =>
          {| world := Some conn; flashed := fl;
             reply := Jsonify
               match crop with
               | None => JsonField (Some 0%float) (Some 0%float) DollarZero
               | Some r =>
                 let total_value := sql_mul (CropStorage.quantity_stored r)
                                      (CropStorage.current_market_price r) in
                 let capacity_used :=
                   option_map sql_round1
                     (sql_mul (sql_div (CropStorage.quantity_stored r)
                                 (CropStorage.storage_capacity r))
                        (Some 100%float)) in
                 match total_value with
                 | Some v => JsonField total_value capacity_used (Dollars v)
                 | None => JsonError (Str TypeError)
                 end
               end |}
        end
      end
    end.

(** *** Planting *)

(** Lines 1377 and 1378 of [add_planting]. *)
Definition total_planting_cost
    (seed_cost fertilizer_cost lime_cost labor_cost equipment_cost fuel_cost
       other_costs : float) : float :=
  (seed_cost + fertilizer_cost + lime_cost + labor_cost + equipment_cost
   + fuel_cost + other_costs)%float.

Definition cost_per_hectare (total_planting_cost planted_area_ha : float)
    : result float :=
  if gt0 planted_area_ha
  then truediv total_planting_cost planted_area_ha
  else Ok 0%float.

(** The [try] block of [add_planting] up to [conn.commit()]: the database to
    commit and the crop type named in the notice. *)
Definition add_planting_post (conn : Database) (f : form)
    : result (Database * string) :=
  (let field_id := lookup "field_id" f in
   let crop_type := lookup "crop_type" f in
   let variety := form_text "variety" f in
   let planting_date := lookup "planting_date" f in
   let planting_season := lookup "planting_season" f in
   let expected_harvest_date := or_none (lookup "expected_harvest_date" f) in
   planted_area_ha <- form_float "planted_area_ha" (Ok 0%float) f ;;
   seed_cost <- form_float "seed_cost" (Ok 0%float) f ;;
   let seed_rate := form_text "seed_rate" f in
   fertilizer_cost <- form_float "fertilizer_cost" (Ok 0%float) f ;;
   lime_cost <- form_float "lime_cost" (Ok 0%float) f ;;
   labor_cost <- form_float "labor_cost" (Ok 0%float) f ;;
   equipment_cost <- form_float "equipment_cost" (Ok 0%float) f ;;
   fuel_cost <- form_float "fuel_cost" (Ok 0%float) f ;;
   other_costs <- form_float "other_costs" (Ok 0%float) f ;;
   let total := total_planting_cost seed_cost fertilizer_cost lime_cost
                  labor_cost equipment_cost fuel_cost other_costs in
   per_hectare <- cost_per_hectare total planted_area_ha ;;
   let planting_method := form_text "planting_method" f in
   let soil_temp := or_none (lookup "soil_temp_c" f) in
   let soil_moisture := form_text "soil_moisture" f in
   let weather_conditions := form_text "weather_conditions" f in
   let operator_name := form_text "operator_name" f in
   let notes := form_text "notes" f in
   field_id <- not_null field_id ;;
   crop_type <- not_null crop_type ;;
   planting_date <- not_null planting_date ;;
   Ok (set_planting_records
         (planting_records conn ++
          [{| PlantingRecords.planting_id :=
                next_id (map PlantingRecords.planting_id (planting_records conn));
              PlantingRecords.field_id := field_id;
              PlantingRecords.crop_type := crop_type;
              PlantingRecords.variety := variety;
              PlantingRecords.planting_date := planting_date;
              PlantingRecords.planting_season := planting_season;
              PlantingRecords.expected_harvest_date := expected_harvest_date;
              PlantingRecords.planted_area_ha := sql_real planted_area_ha;
              PlantingRecords.seed_cost := sql_real seed_cost;
              PlantingRecords.seed_rate := seed_rate;
              PlantingRecords.fertilizer_cost := sql_real fertilizer_cost;
              PlantingRecords.lime_cost := sql_real lime_cost;
              PlantingRecords.labor_cost := sql_real labor_cost;
              PlantingRecords.equipment_cost := sql_real equipment_cost;
              PlantingRecords.fuel_cost := sql_real fuel_cost;
              PlantingRecords.other_costs := sql_real other_costs;
              PlantingRecords.total_planting_cost := sql_real total;
              PlantingRecords.cost_per_hectare := sql_real per_hectare;
              PlantingRecords.planting_method := planting_method;
              PlantingRecords.soil_temp_c := soil_temp;
              PlantingRecords.soil_moisture := soil_moisture;
              PlantingRecords.weather_conditions := weather_conditions;
              PlantingRecords.operator_name := operator_name;
              PlantingRecords.notes := notes;
              PlantingRecords.status := Some "Active" |}]) conn,
       crop_type))%py.

(** [add_planting()] *)
Definition add_planting (w : World) (method : http_method) (f : form) : outcome :=
  match get_db_connection w with
  | (None, fl) =>
    {| world := w; flashed := fl; reply := Redirect "planting_dashboard" None |}
  | (Some conn, fl) =>
    match method with
    | POST =>
      match add_planting_post conn f with
      | Ok (conn, crop_type) =>
        {| world := Some conn; flashed := fl ++ [PlantingAdded crop_type];
           reply := Redirect "planting_dashboard" None |}
      | Raise e =>
        {| world := w; flashed := fl ++ [ErrorAddingPlanting e];
           reply := Render "planting/add.html" |}
      end
    | GET => {| world := w; flashed := fl; reply := Render "planting/add.html" |}
    end
  end.

(** *** Harvest *)

(** Lines 1600 and 1623 to 1633 of [add_harvest]. *)
Definition yield_per_hectare (total_yield_tonnes harvested_area_ha : float)
    : result float :=
  if gt0 harvested_area_ha
  then truediv total_yield_tonnes harvested_area_ha
  else Ok 0%float.

Definition total_harvest_cost
    (harvest_labor_cost harvest_equipment_cost harvest_fuel_cost transport_cost
       drying_cost storage_cost other_harvest_costs : float) : float :=
  (harvest_labor_cost + harvest_equipment_cost + harvest_fuel_cost
   + transport_cost + drying_cost + storage_cost + other_harvest_costs)%float.

Definition gross_revenue (total_yield_tonnes market_price price_premium : float)
    : float :=
  (total_yield_tonnes * (market_price + price_premium))%float.

(** [planting['total_planting_cost'] + maintenance_costs + total_harvest_cost],
    [maintenance_costs] being [planting['maintenance_costs'] or 0]. *)
Definition total_costs (planting_cost maintenance : option float)
    (total_harvest_cost : float) : result float :=
  match planting_cost with
  | Some c => Ok (c + or_zero maintenance + total_harvest_cost)%float
  | None => Raise TypeError
  end.

Definition net_profit (gross_revenue total_costs : float) : float :=
  (gross_revenue - total_costs)%float.

Definition profit_per_hectare (net_profit harvested_area_ha : float)
    : result float :=
  if gt0 harvested_area_ha
  then truediv net_profit harvested_area_ha
  else Ok 0%float.

Definition roi_percent (net_profit total_costs : float) : result float :=
  if gt0 total_costs
  then (q <- truediv net_profit total_costs ;; Ok (q * 100)%float)%py
  else Ok 0%float.

Definition break_even_price (total_costs total_yield_tonnes : float)
    : result float :=
  if gt0 total_yield_tonnes
  then truediv total_costs total_yield_tonnes
  else Ok 0%float.

(** [SELECT SUM(total_cost) FROM field_maintenance WHERE planting_id = ?] *)
Definition maintenance_costs (conn : Database) (planting_id : Z) : option float :=
  sql_sum (map FieldMaintenance.total_cost
             (sql_select
                (fun m => match FieldMaintenance.planting_id m with
                          | Some p => Z.eqb p planting_id
                          | None => false
                          end)
                (field_maintenance conn))).

(** The planting of [add_harvest]: [planting_records] joined with [fields],
    with the maintenance costs of the planting. *)
Definition select_planting (conn : Database) (planting_id : Z)
    : option (PlantingRecords.row * option float) :=
  fetchone
    (flat_map
       (fun p =>
          map (fun _ => (p, maintenance_costs conn (PlantingRecords.planting_id p)))
            (sql_select
               (fun fd => String.eqb (PlantingRecords.field_id p) (Fields.field_id fd))
               (fields conn)))
       (sql_select (fun p => Z.eqb (PlantingRecords.planting_id p) planting_id)
          (planting_records conn))).

Definition with_status (s : option string) (r : PlantingRecords.row)
    : PlantingRecords.row :=
  {| PlantingRecords.planting_id := PlantingRecords.planting_id r;
     PlantingRecords.field_id := PlantingRecords.field_id r;
     PlantingRecords.crop_type := PlantingRecords.crop_type r;
     PlantingRecords.variety := PlantingRecords.variety r;
     PlantingRecords.planting_date := PlantingRecords.planting_date r;
     PlantingRecords.planting_season := PlantingRecords.planting_season r;
     PlantingRecords.expected_harvest_date :=
       PlantingRecords.expected_harvest_date r;
     PlantingRecords.planted_area_ha := PlantingRecords.planted_area_ha r;
     PlantingRecords.seed_cost := PlantingRecords.seed_cost r;
     PlantingRecords.seed_rate := PlantingRecords.seed_rate r;
     PlantingRecords.fertilizer_cost := PlantingRecords.fertilizer_cost r;
     PlantingRecords.lime_cost := PlantingRecords.lime_cost r;
     PlantingRecords.labor_cost := PlantingRecords.labor_cost r;
     PlantingRecords.equipment_cost := PlantingRecords.equipment_cost r;
     PlantingRecords.fuel_cost := PlantingRecords.fuel_cost r;
     PlantingRecords.other_costs := PlantingRecords.other_costs r;
     PlantingRecords.total_planting_cost := PlantingRecords.total_planting_cost r;
     PlantingRecords.cost_per_hectare := PlantingRecords.cost_per_hectare r;
     PlantingRecords.planting_method := PlantingRecords.planting_method r;
     PlantingRecords.soil_temp_c := PlantingRecords.soil_temp_c r;
     PlantingRecords.soil_moisture := PlantingRecords.soil_moisture r;
     PlantingRecords.weather_conditions := PlantingRecords.weather_conditions r;
     PlantingRecords.operator_name := PlantingRecords.operator_name r;
     PlantingRecords.notes := PlantingRecords.notes r;
     PlantingRecords.status := s |}.

(** [SET quantity_stored = quantity_stored + ?, current_market_price = ?,
    last_price_update = ?] on one row. *)
Definition store_harvest (total_yield_tonnes market_price : option float)
    (harvest_date : option string) (r : CropStorage.row) : CropStorage.row :=
  {| CropStorage.storage_id := CropStorage.storage_id r;
     CropStorage.crop_name := CropStorage.crop_name r;
     CropStorage.crop_category := CropStorage.crop_category r;
     CropStorage.quantity_stored :=
       sql_add (CropStorage.quantity_stored r) total_yield_tonnes;
     CropStorage.storage_capacity := CropStorage.storage_capacity r;
     CropStorage.current_market_price := market_price;
     CropStorage.sale_location := CropStorage.sale_location r;
     CropStorage.last_price_update := harvest_date;
     CropStorage.notes := CropStorage.notes r;
     CropStorage.updated_date := CropStorage.updated_date r |}.

(** The [try] block of [add_harvest] up to [conn.commit()]: the database to
    commit, and the net profit and return on investment named in the notice. *)
Definition add_harvest_post (conn : Database) (planting_id : Z)
    (planting : PlantingRecords.row) (maintenance : option float) (f : form)
    : result (Database * (float * float)) :=
  (let harvest_date := lookup "harvest_date" f in
   let harvest_season := form_text "harvest_season" f in
   total_yield_tonnes <- form_float "total_yield_tonnes" (Raise TypeError) f ;;
   harvested_area_ha <-
     form_float "harvested_area_ha"
       match PlantingRecords.planted_area_ha planting with
       | Some a => Ok a
       | None => Raise TypeError
       end f ;;
   per_hectare <- yield_per_hectare total_yield_tonnes harvested_area_ha ;;
   moisture_percent <- form_float_opt "moisture_percent" f ;;
   let quality_grade := form_text "quality_grade" f in
   test_weight <- form_float_opt "test_weight" f ;;
   protein_percent <- form_float_opt "protein_percent" f ;;
   damage_percent <- form_float "damage_percent" (Ok 0%float) f ;;
   market_price <- form_float "market_price_per_tonne" (Ok 0%float) f ;;
   price_premium <- form_float "price_premium" (Ok 0%float) f ;;
   let buyer_name := form_text "buyer_name" f in
   let sale_location := form_text "sale_location" f in
   harvest_labor_cost <- form_float "harvest_labor_cost" (Ok 0%float) f ;;
   harvest_equipment_cost <- form_float "harvest_equipment_cost" (Ok 0%float) f ;;
   harvest_fuel_cost <- form_float "harvest_fuel_cost" (Ok 0%float) f ;;
   transport_cost <- form_float "transport_cost" (Ok 0%float) f ;;
   drying_cost <- form_float "drying_cost" (Ok 0%float) f ;;
   storage_cost <- form_float "storage_cost" (Ok 0%float) f ;;
   other_harvest_costs <- form_float "other_harvest_costs" (Ok 0%float) f ;;
   let harvest_cost := total_harvest_cost harvest_labor_cost
     harvest_equipment_cost harvest_fuel_cost transport_cost drying_cost
     storage_cost other_harvest_costs in
   let revenue := gross_revenue total_yield_tonnes market_price price_premium in
   costs <- total_costs (PlantingRecords.total_planting_cost planting)
              maintenance harvest_cost ;;
   let profit := net_profit revenue costs in
   profit_ha <- profit_per_hectare profit harvested_area_ha ;;
   roi <- roi_percent profit costs ;;
   break_even <- break_even_price costs total_yield_tonnes ;;
   let harvest_method := form_text "harvest_method" f in
   let equipment_used := form_text "equipment_used" f in
   let operator_name := form_text "operator_name" f in
   let weather_conditions := form_text "weather_conditions" f in
   let notes := form_text "notes" f in
   harvest_date <- not_null harvest_date ;;
   stored_yield <- not_null (sql_real total_yield_tonnes) ;;
   let conn := set_harvest_records
     (harvest_records conn ++
      [{| HarvestRecords.harvest_id :=
            next_id (map HarvestRecords.harvest_id (harvest_records conn));
          HarvestRecords.planting_id := planting_id;
          HarvestRecords.field_id := PlantingRecords.field_id planting;
          HarvestRecords.harvest_date := harvest_date;
          HarvestRecords.harvest_season := harvest_season;
          HarvestRecords.total_yield_tonnes := stored_yield;
          HarvestRecords.yield_per_hectare := sql_real per_hectare;
          HarvestRecords.harvested_area_ha := sql_real harvested_area_ha;
          HarvestRecords.moisture_percent :=
            match moisture_percent with Some x => sql_real x | None => None end;
          HarvestRecords.quality_grade := quality_grade;
          HarvestRecords.test_weight :=
            match test_weight with Some x => sql_real x | None => None end;
          HarvestRecords.protein_percent :=
            match protein_percent with Some x => sql_real x | None => None end;
          HarvestRecords.damage_percent := sql_real damage_percent;
          HarvestRecords.market_price_per_tonne := sql_real market_price;
          HarvestRecords.price_premium := sql_real price_premium;
          HarvestRecords.buyer_name := buyer_name;
          HarvestRecords.sale_location := sale_location;
          HarvestRecords.harvest_method := harvest_method;
          HarvestRecords.equipment_used := equipment_used;
          HarvestRecords.operator_name := operator_name;
          HarvestRecords.weather_conditions := weather_conditions;
          HarvestRecords.harvest_labor_cost := sql_real harvest_labor_cost;
          HarvestRecords.harvest_equipment_cost := sql_real harvest_equipment_cost;
          HarvestRecords.harvest_fuel_cost := sql_real harvest_fuel_cost;
          HarvestRecords.transport_cost := sql_real transport_cost;
          HarvestRecords.drying_cost := sql_real drying_cost;
          HarvestRecords.storage_cost := sql_real storage_cost;
          HarvestRecords.other_harvest_costs := sql_real other_harvest_costs;
          HarvestRecords.total_harvest_cost := sql_real harvest_cost;
          HarvestRecords.gross_revenue := sql_real revenue;
          HarvestRecords.total_costs := sql_real costs;
          HarvestRecords.net_profit := sql_real profit;
          HarvestRecords.profit_per_hectare := sql_real profit_ha;
          HarvestRecords.roi_percent := sql_real roi;
          HarvestRecords.break_even_price := sql_real break_even;
          HarvestRecords.notes := notes |}]) conn in
   let conn := set_planting_records
     (sql_update (fun p => Z.eqb (PlantingRecords.planting_id p) planting_id)
        (with_status (Some "Harvested")) (planting_records conn)) conn in
   let crop := Some (PlantingRecords.crop_type planting) in
   let storage_exists := fetchone (sql_select (named crop) (crop_storage conn)) in
   let conn :=
     match storage_exists with
     | Some _ =>
       set_crop_storage
         (sql_update (named crop)
            (store_harvest (sql_real total_yield_tonnes) (sql_real market_price)
               (Some harvest_date))
            (crop_storage conn)) conn
     | None => conn
     end in
   Ok (conn, (profit, roi)))%py.

(** [add_harvest(planting_id)] *)
Definition add_harvest (w : World) (method : http_method) (planting_id : Z)
    (f : form) : outcome :=
  match get_db_connection w with
  | (None, fl) =>
    {| world := w; flashed := fl; reply := Redirect "planting_dashboard" None |}
  | (Some conn, fl) =>
    match select_planting conn planting_id with
    | None =>
      {| world := w; flashed := fl ++ [PlantingNotFound];
         reply := Redirect "planting_dashboard" None |}
    | Some (planting, maintenance) =>
      match method with
      | POST =>
        match add_harvest_post conn planting_id planting maintenance f with
        | Ok (conn, (profit, roi)) =>
          {| world := Some conn; flashed := fl ++ [HarvestRecorded profit roi];
             reply := Redirect "planting_detail" (Some planting_id) |}
        | Raise e =>
          {| world := w; flashed := fl ++ [ErrorRecordingHarvest e];
             reply := Render "harvest/add.html" |}
        end
      | GET => {| world := w; flashed := fl; reply := Render "harvest/add.html" |}
      end
    end
  end.

(** A harvest submission that succeeded: the handler committed [after] and
    redirected to the planting's page. *)
Definition harvested (d : Database) (planting_id : Z) (f : form)
    (after : Database) : Prop :=
  world (add_harvest (Some d) POST planting_id f) = Some after
  /\ reply (add_harvest (Some d) POST planting_id f)
     = Redirect "planting_detail" (Some planting_id).

(** A planting submission that succeeded: the handler committed [after] and
    redirected to the planting dashboard. *)
Definition planted (d : Database) (f : form) (after : Database) : Prop :=
  world (add_planting (Some d) POST f) = Some after
  /\ reply (add_planting (Some d) POST f) = Redirect "planting_dashboard" None.

(** The row a statement appended to a table. *)
Definition inserted {R : Type} (before after : list R) (r : R) : Prop :=
  after = (before ++ [r])%list.

(** ** A small farm

    One field with a season, an operation and a weather event, a wheat
    planting on it that cost 1000 and a weeding of that planting that cost
    200, the wheat row of the storage table at 220 per tonne, and two sale
    locations. *)

Definition wheat_planting : PlantingRecords.row :=
  {| PlantingRecords.planting_id := 1;
     PlantingRecords.field_id := "F001";
     PlantingRecords.crop_type := "Wheat";
     PlantingRecords.variety := Some "";
     PlantingRecords.planting_date := "2025-04-01";
     PlantingRecords.planting_season := Some "Spring";
     PlantingRecords.expected_harvest_date := None;
     PlantingRecords.planted_area_ha := Some 10%float;
     PlantingRecords.seed_cost := Some 500%float;
     PlantingRecords.seed_rate := Some "";
     PlantingRecords.fertilizer_cost := Some 300%float;
     PlantingRecords.lime_cost := Some 0%float;
     PlantingRecords.labor_cost := Some 200%float;
     PlantingRecords.equipment_cost := Some 0%float;
     PlantingRecords.fuel_cost := Some 0%float;
     PlantingRecords.other_costs := Some 0%float;
     PlantingRecords.total_planting_cost := Some 1000%float;
     PlantingRecords.cost_per_hectare := Some 100%float;
     PlantingRecords.planting_method := Some "";
     PlantingRecords.soil_temp_c := None;
     PlantingRecords.soil_moisture := Some "";
     PlantingRecords.weather_conditions := Some "";
     PlantingRecords.operator_name := Some "";
     PlantingRecords.notes := Some "";
     PlantingRecords.status := Some "Active" |}.

Definition wheat_weeding : FieldMaintenance.row :=
  {| FieldMaintenance.maintenance_id := 1;
     FieldMaintenance.field_id := "F001";
     FieldMaintenance.planting_id := Some 1%Z;
     FieldMaintenance.maintenance_date := "2025-05-15";
     FieldMaintenance.maintenance_type := "Weeding";
     FieldMaintenance.total_cost := Some 200%float |}.

Definition wheat_storage : CropStorage.row :=
  {| CropStorage.storage_id := 1;
     CropStorage.crop_name := "Wheat";
     CropStorage.crop_category := Some "Grains";
     CropStorage.quantity_stored := Some 0%float;
     CropStorage.storage_capacity := Some 2000%float;
     CropStorage.current_market_price := Some 220%float;
     CropStorage.sale_location := Some "Grain Elevator";
     CropStorage.last_price_update := Some "2025-01-01";
     CropStorage.notes := None;
     CropStorage.updated_date := Some "2025-01-01 00:00:00" |}.

Definition grain_elevator : SaleLocations.row :=
  {| SaleLocations.location_id := 1;
     SaleLocations.location_name := "Grain Elevator";
     SaleLocations.location_type := Some "Elevator" |}.

Definition rice_mill : SaleLocations.row :=
  {| SaleLocations.location_id := 3;
     SaleLocations.location_name := "Rice Mill";
     SaleLocations.location_type := Some "Mill" |}.

Definition farm : Database :=
  {| fields :=
       [{| Fields.field_id := "F001"; Fields.field_name := "North Valley";
           Fields.size_hectares := Some 15.5%float |}];
     crop_seasons :=
       [{| CropSeasons.season_id := 1; CropSeasons.field_id := "F001";
           CropSeasons.crop_year := 2025; CropSeasons.crop_type := "Wheat" |}];
     field_operations :=
       [{| FieldOperations.operation_id := 1;
           FieldOperations.field_id := "F001";
           FieldOperations.season_id := Some 1%Z;
           FieldOperations.operation_date := "2025-03-20";
           FieldOperations.operation_type := "Plowing" |}];
     weather_events :=
       [{| WeatherEvents.event_id := 1; WeatherEvents.field_id := "F001";
           WeatherEvents.season_id := Some 1%Z;
           WeatherEvents.event_date := "2025-06-11";
           WeatherEvents.weather_type := "Hail" |}];
     planting_records := [wheat_planting];
     field_maintenance := [wheat_weeding];
     harvest_records := [];
     crop_storage := [wheat_storage];
     sale_locations := [grain_elevator; rice_mill];
     price_history := [] |}.

Definition noon : clock :=
  {| now := "2025-09-01 12:00:00"; today := "2025-09-01" |}.

(** The harvest of the wheat planting: 50 tonnes off 10 hectares, sold at 200
    per tonne with a premium of 10, no harvest costs entered. *)
Definition wheat_harvest : form :=
  [("harvest_date", "2025-09-01"); ("total_yield_tonnes", "50");
   ("harvested_area_ha", "10"); ("market_price_per_tonne", "200");
   ("price_premium", "10")].




Definition quinoa_price : body :=
  [("crop_name", JString "Quinoa"); ("field_name", JString "price");
   ("value", JNumber 5)].

(** A planting with seed 100, fertilizer 50 and labor 30 on 10 hectares. *)
Definition barley_planting : form :=
  [("field_id", "F001"); ("crop_type", "Barley");
   ("planting_date", "2025-04-02"); ("planted_area_ha", "10");
   ("seed_cost", "100"); ("fertilizer_cost", "50"); ("labor_cost", "30")].





(** A handler's computation does not end in a division by zero. *)
Definition no_zero_division {A : Type} (m : result A) : Prop :=
  m <> Raise ZeroDivisionError.

(** The specification floats that are zero, positive or plus infinity. *)
Definition sf_nonneg (a : spec_float) : Prop :=
  match a with
  | S754_zero _ => True
  | S754_infinity s | S754_finite s _ _ => s = false
  | S754_nan => False
  end.

(** ** More handlers *)

(** *** Storage: the edit page *)

(** Where [edit_crop_storage] sends the browser: back to the dashboard, or
    the edit page of a crop with the names of the sale locations. *)
Inductive edit_page : Type :=
| Dashboard
| EditForm (crop : CropStorage.row) (locations : list string).

(** [INSERT INTO price_history (crop_name, price, sale_location, price_date)] *)
Definition insert_price_at (crop_name : string) (price : option float)
    (sale_location : option string) (price_date : string) (d : Database)
    : result Database :=
  (price <- not_null price ;;
   Ok (set_price_history
         (price_history d ++
          [{| PriceHistory.price_id :=
                next_id (map PriceHistory.price_id (price_history d));
              PriceHistory.crop_name := crop_name;
              PriceHistory.price := price;
              PriceHistory.sale_location := sale_location;
              PriceHistory.price_date := price_date |}]) d))%py.

(** [SET quantity_stored = ?, storage_capacity = ?, current_market_price = ?,
    sale_location = ?, notes = ?, last_price_update = ?, updated_date = ?] on
    one row. *)
Definition edited (quantity capacity price : option float)
    (location notes : option string) (t : clock) (r : CropStorage.row)
    : CropStorage.row :=
  {| CropStorage.storage_id := CropStorage.storage_id r;
     CropStorage.crop_name := CropStorage.crop_name r;
     CropStorage.crop_category := CropStorage.crop_category r;
     CropStorage.quantity_stored := quantity;
     CropStorage.storage_capacity := capacity;
     CropStorage.current_market_price := price;
     CropStorage.sale_location := location;
     CropStorage.last_price_update := Some (today t);
     CropStorage.notes := notes;
     CropStorage.updated_date := Some (now t) |}.

(** The [try] block of [edit_crop_storage] up to [conn.commit()]. *)
Definition edit_crop_storage_post (conn : Database) (t : clock)
    (crop_name : string) (f : form) : result Database :=
  (quantity <- form_float "quantity_stored" (Ok 0%float) f ;;
   capacity <- form_float "storage_capacity" (Ok 1000%float) f ;;
   price <- form_float "current_market_price" (Ok 0%float) f ;;
   let location := form_text "sale_location" f in
   let notes := form_text "notes" f in
   conn <-
     match fetchone (sql_select (named (Some crop_name)) (crop_storage conn)) with
     | Some old_price =>
       if py_ne (CropStorage.current_market_price old_price) price
       then insert_price_at crop_name (sql_real price) location (today t) conn
       else Ok conn
     | None => Ok conn
     end ;;
   Ok (set_crop_storage
         (sql_update (named (Some crop_name))
            (edited (sql_real quantity) (sql_real capacity) (sql_real price)
               location notes t)
            (crop_storage conn)) conn))%py.

(** [edit_crop_storage(crop_name)] *)
Definition edit_crop_storage (w : World) (t : clock) (method : http_method)
    (crop_name : string) (f : form) : served edit_page :=
  match get_db_connection w with
  | (None, fl) => {| file := w; notes := map inl fl; answer := Dashboard |}
  | (Some conn, fl) =>
    let locations :=
      sorted (map SaleLocations.location_name (sale_locations conn)) in
    let show (fl : list (notice + note)) :=
      match fetchone (sql_select (named (Some crop_name)) (crop_storage conn)) with
      | Some crop =>
        {| file := w; notes := fl; answer := EditForm crop locations |}
      | None =>
        {| file := w; notes := fl ++ [inr CropNotFound]; answer := Dashboard |}
      end in
    match method with
    | POST =>
      match edit_crop_storage_post conn t crop_name f with
      | Ok conn =>
        {| file := Some conn;
           notes := map inl fl ++ [inr (StorageUpdated crop_name)];
           answer := Dashboard |}
      | Raise e =>
        show (map inl fl ++ [inr (ErrorUpdatingStorage crop_name e)])%list
      end
    | GET => show (map inl fl)
    end
  end.

(** *** Storage: the names of the sale locations *)

Definition default_locations : list string :=
  ["Grain Elevator"; "Export Terminal"; "Rice Mill"; "Food Processing Plant";
   "Sugar Factory"; "Fresh Market"; "Livestock Farm"; "Biomass Plant";
   "Sawmill"; "Dairy"; "Textile Mill"; "Bakery"; "Supermarket"].

(** The loop of lines 913 to 915: a default that is not in the list yet is
    appended to it. *)
Definition add_defaults (location_names : list string) : list string :=
  fold_left
    (fun names default =>
       if existsb (String.eqb default) names
       then names
       else (names ++ [default])%list)
    default_locations location_names.

(** [WHERE sale_location IS NOT NULL AND sale_location != ''] *)
Definition has_location (c : CropStorage.row) : bool :=
  match CropStorage.sale_location c with
  | Some s => negb (String.eqb s "")
  | None => false
  end.

Inductive locations_reply : Type :=
| LocationsError (err : error_text)
    (* {'success': False, 'error': err} *)
| Locations (locations : list string).
    (* {'success': True, 'locations': locations} *)

(** [get_sale_locations()] *)
Definition get_sale_locations (w : World) : served locations_reply :=
  match get_db_connection w with
  | (None, fl) =>
    {| file := w; notes := map inl fl;
       answer := LocationsError ConnectionFailed |}
  | (Some conn, fl) =>
    let locations :=
      sorted (distinct (non_null (map CropStorage.sale_location
                                    (sql_select has_location (crop_storage conn)))))
    in
    {| file := w; notes := map inl fl;
       answer := Locations (sorted (add_defaults locations)) |}
  end.

(** *** Operations *)

(** [delete_operation(operation_id)] *)
Definition delete_operation (w : World) (operation_id : Z) : served response :=
  match get_db_connection w with
  | (None, fl) =>
    {| file := w; notes := map inl fl;
       answer := Redirect "operations_list" None |}
  | (Some conn, fl) =>
    let conn := set_field_operations
      (sql_delete (fun o => Z.eqb (FieldOperations.operation_id o) operation_id)
         (field_operations conn)) conn in
    {| file := Some conn; notes := map inl fl ++ [inr OperationDeleted];
       answer := Redirect "operations_list" None |}
  end.

(** *** Maintenance *)

Definition set_field_maintenance (t : list FieldMaintenance.row) (d : Database)
    : Database :=
  {| fields := fields d; crop_seasons := crop_seasons d;
     field_operations := field_operations d; weather_events := weather_events d;
     planting_records := planting_records d;
     field_maintenance := t;
     harvest_records := harvest_records d; crop_storage := crop_storage d;
     sale_locations := sale_locations d; price_history := price_history d |}.

(** The planting of [add_maintenance]: [planting_records] joined with
    [fields]. *)
Definition select_planting_row (conn : Database) (planting_id : Z)
    : option PlantingRecords.row :=
  fetchone
    (flat_map
       (fun p =>
          map (fun _ => p)
            (sql_select
               (fun fd => String.eqb (PlantingRecords.field_id p) (Fields.field_id fd))
               (fields conn)))
       (sql_select (fun p => Z.eqb (PlantingRecords.planting_id p) planting_id)
          (planting_records conn))).

(** [float(request.form.get(k, 0)) if request.form.get(k) else None] *)
Definition form_float_opt0 (k : string) (f : form) : result (option float) :=
  if truthy (lookup k f)
  then (x <- form_float k (Ok 0%float) f ;; Ok (Some x))%py
  else Ok None.

(** The [try] block of [add_maintenance] up to [conn.commit()]: the database
    to commit and the maintenance type named in the notice.  Of the columns
    inserted the row keeps those of the table above. *)
Definition add_maintenance_post (conn : Database) (planting_id : Z)
    (planting : PlantingRecords.row) (f : form) : result (Database * string) :=
  (let maintenance_date := lookup "maintenance_date" f in
   let maintenance_type := lookup "maintenance_type" f in
   hours_worked <- form_float "hours_worked" (Ok 0%float) f ;;
   labor_cost <- form_float "labor_cost" (Ok 0%float) f ;;
   equipment_cost <- form_float "equipment_cost" (Ok 0%float) f ;;
   material_cost <- form_float "material_cost" (Ok 0%float) f ;;
   fuel_cost <- form_float "fuel_cost" (Ok 0%float) f ;;
   let total_cost := (labor_cost + equipment_cost + material_cost + fuel_cost)%float in
   area_covered <- form_float_opt0 "area_covered_ha" f ;;
   maintenance_date <- not_null maintenance_date ;;
   maintenance_type <- not_null maintenance_type ;;
   Ok (set_field_maintenance
         (field_maintenance conn ++
          [{| FieldMaintenance.maintenance_id :=
                next_id (map FieldMaintenance.maintenance_id
                           (field_maintenance conn));
              FieldMaintenance.field_id := PlantingRecords.field_id planting;
              FieldMaintenance.planting_id := Some planting_id;
              FieldMaintenance.maintenance_date := maintenance_date;
              FieldMaintenance.maintenance_type := maintenance_type;
              FieldMaintenance.total_cost := sql_real total_cost |}]) conn,
       maintenance_type))%py.

(** [add_maintenance(planting_id)] *)
Definition add_maintenance (w : World) (method : http_method) (planting_id : Z)
    (f : form) : served response :=
  match get_db_connection w with
  | (None, fl) =>
    {| file := w; notes := map inl fl;
       answer := Redirect "planting_dashboard" None |}
  | (Some conn, fl) =>
    match select_planting_row conn planting_id with
    | None =>
      {| file := w; notes := map inl (fl ++ [PlantingNotFound]);
         answer := Redirect "planting_dashboard" None |}
    | Some planting =>
      match method with
      | POST =>
        match add_maintenance_post conn planting_id planting f with
        | Ok (conn, maintenance_type) =>
          {| file := Some conn;
             notes := map inl fl ++ [inr (MaintenanceRecorded maintenance_type)];
             answer := Redirect "planting_detail" (Some planting_id) |}
        | Raise e =>
          {| file := w;
             notes := map inl fl ++ [inr (ErrorAddingMaintenance e)];
             answer := Render "maintenance/add.html" |}
        end
      | GET =>
        {| file := w; notes := map inl fl;
           answer := Render "maintenance/add.html" |}
      end
    end
  end.

(** A maintenance submission that succeeded. *)
Definition maintained (d : Database) (planting_id : Z) (f : form)
    (after : Database) : Prop :=
  file (add_maintenance (Some d) POST planting_id f) = Some after
  /\ answer (add_maintenance (Some d) POST planting_id f)
     = Redirect "planting_detail" (Some planting_id).

(** A storage edit that succeeded: the handler committed [after], flashed
    that the crop was updated and went back to the dashboard. *)
Definition stored (d : Database) (t : clock) (crop_name : string) (f : form)
    (after : Database) : Prop :=
  edit_crop_storage (Some d) t POST crop_name f
  = {| file := Some after; notes := [inr (StorageUpdated crop_name)];
       answer := Dashboard |}.

(** ** More requests on the small farm *)

(** The wheat row edited: 120 tonnes of 2000, at 250, sold at the rice mill. *)
Definition wheat_edit : form :=
  [("quantity_stored", "120"); ("storage_capacity", "2000");
   ("current_market_price", "250"); ("sale_location", "Rice Mill");
   ("notes", "dry")].

(** A second weeding of the wheat planting: labor 40 and fuel 10. *)
Definition second_weeding : form :=
  [("maintenance_date", "2025-06-01"); ("maintenance_type", "Weeding");
   ("labor_cost", "40"); ("fuel_cost", "10")].

(** A planting on a field the farm does not have. *)
Definition stray_planting : form :=
  [("field_id", "F404"); ("crop_type", "Oat"); ("planting_date", "2025-04-03")].

(** The farm with 30 tonnes of wheat and 12 tonnes of barley in store. *)
Definition barley_storage : CropStorage.row :=
  {| CropStorage.storage_id := 2;
     CropStorage.crop_name := "Barley";
     CropStorage.crop_category := Some "Grains";
     CropStorage.quantity_stored := Some 12%float;
     CropStorage.storage_capacity := Some 1000%float;
     CropStorage.current_market_price := Some 180%float;
     CropStorage.sale_location := None;
     CropStorage.last_price_update := None;
     CropStorage.notes := None;
     CropStorage.updated_date := None |}.

Definition stocked_farm : Database :=
  set_crop_storage
    [with_quantity (Some 30%float) (Some "2025-08-01 08:00:00") wheat_storage;
     barley_storage] farm.

(** A quantity that is no number, as [float] reads it from [NaN] or ['nan'];
    and the farm once [update_quantity] has bound it to the wheat row. *)
Definition no_number : body :=
  [("crop_name", JString "Wheat"); ("quantity", JNumber nan)].

Definition unweighed_farm : Database :=
  set_crop_storage [with_quantity None (Some (now noon)) wheat_storage] farm.

(** The farm with more maintenance on record: a spraying of the wheat
    planting that cost 50, a mowing without a cost, a liming of another
    planting and a ditching tied to none. *)
Definition wheat_spraying : FieldMaintenance.row :=
  {| FieldMaintenance.maintenance_id := 2;
     FieldMaintenance.field_id := "F001";
     FieldMaintenance.planting_id := Some 1%Z;
     FieldMaintenance.maintenance_date := "2025-06-10";
     FieldMaintenance.maintenance_type := "Spraying";
     FieldMaintenance.total_cost := Some 50%float |}.

Definition wheat_mowing : FieldMaintenance.row :=
  {| FieldMaintenance.maintenance_id := 3;
     FieldMaintenance.field_id := "F001";
     FieldMaintenance.planting_id := Some 1%Z;
     FieldMaintenance.maintenance_date := "2025-06-20";
     FieldMaintenance.maintenance_type := "Mowing";
     FieldMaintenance.total_cost := None |}.

Definition other_liming : FieldMaintenance.row :=
  {| FieldMaintenance.maintenance_id := 4;
     FieldMaintenance.field_id := "F001";
     FieldMaintenance.planting_id := Some 2%Z;
     FieldMaintenance.maintenance_date := "2025-06-21";
     FieldMaintenance.maintenance_type := "Liming";
     FieldMaintenance.total_cost := Some 999%float |}.

Definition ditching : FieldMaintenance.row :=
  {| FieldMaintenance.maintenance_id := 5;
     FieldMaintenance.field_id := "F001";
     FieldMaintenance.planting_id := None;
     FieldMaintenance.maintenance_date := "2025-06-22";
     FieldMaintenance.maintenance_type := "Ditching";
     FieldMaintenance.total_cost := Some 7%float |}.

Definition tended_farm : Database :=
  set_field_maintenance
    [wheat_weeding; other_liming; wheat_spraying; wheat_mowing; ditching] farm.

(** The wheat harvest with 30 of labor and 20 of transport. *)
Definition hauled_harvest : form :=
  [("harvest_date", "2025-09-01"); ("total_yield_tonnes", "50");
   ("harvested_area_ha", "10"); ("market_price_per_tonne", "200");
   ("price_premium", "10"); ("harvest_labor_cost", "30");
   ("transport_cost", "20")].

(** The [total_cost] values, NULL left out, of the maintenance rows tied to a
    planting, in the order of the table: what the claim on the total costs
    of a harvest sums. *)
Fixpoint costs_tied_to (planting_id : Z) (rows : list FieldMaintenance.row)
    : list float :=
  match rows with
  | [] => []
  | m :: rest =>
    match FieldMaintenance.planting_id m, FieldMaintenance.total_cost m with
    | Some p, Some c =>
      if Z.eqb p planting_id
      then c :: costs_tied_to planting_id rest
      else costs_tied_to planting_id rest
    | _, _ => costs_tied_to planting_id rest
    end
  end.

(** Their sum, added up from 0 in that order. *)
Definition sum_of (costs : list float) : float :=
  fold_left PrimFloat.add costs 0%float.

(** ** General facts *)

Lemma set_crop_storage_same (d : Database) : set_crop_storage (crop_storage d) d = d.
Proof. destruct d; reflexivity. Qed.

Lemma sql_update_none {R : Type} (where_ : R -> bool) (set : R -> R) (t : list R) :
  (forall r, In r t -> where_ r = false) -> sql_update where_ set t = t.
Proof.
  unfold sql_update. induction t as [|r t IH]; intros H; simpl.
  - reflexivity.
  - rewrite (H r (or_introl eq_refl)). f_equal.
    apply IH. intros r' Hr'. apply H. now right.
Qed.

Lemma sql_select_none {R : Type} (where_ : R -> bool) (t : list R) :
  (forall r, In r t -> where_ r = false) -> sql_select where_ t = [].
Proof.
  unfold sql_select. induction t as [|r t IH]; intros H; simpl.
  - reflexivity.
  - rewrite (H r (or_introl eq_refl)). apply IH.
    intros r' Hr'. apply H. now right.
Qed.

Lemma sql_select_In {R : Type} (where_ : R -> bool) (t : list R) (r : R) :
  In r (sql_select where_ t) <-> In r t /\ where_ r = true.
Proof. unfold sql_select. apply filter_In. Qed.

Lemma sql_delete_In {R : Type} (where_ : R -> bool) (t : list R) (r : R) :
  In r (sql_delete where_ t) <-> In r t /\ where_ r = false.
Proof.
  unfold sql_delete. rewrite filter_In.
  destruct (where_ r); simpl; intuition congruence.
Qed.

Lemma fetchone_In {R : Type} (rows : list R) (r : R) :
  fetchone rows = Some r -> In r rows.
Proof. destruct rows; simpl; intros H; inversion H; now left. Qed.

Lemma fetchone_none {R : Type} (rows : list R) : fetchone rows = None -> rows = [].
Proof. destruct rows; simpl; intros H; [reflexivity | discriminate]. Qed.

Lemma primary_key {R : Type} (key : R -> Z) (t : list R) (a b : R) :
  NoDup (map key t) -> In a t -> In b t -> key a = key b -> a = b.
Proof.
  induction t as [|r t IH]; simpl; intros Hnd Ha Hb Hk; [contradiction|].
  inversion Hnd as [|k ks Hnotin Hnd']; subst.
  destruct Ha as [Ha|Ha], Hb as [Hb|Hb]; subst.
  - reflexivity.
  - exfalso. apply Hnotin. rewrite Hk. now apply in_map.
  - exfalso. apply Hnotin. rewrite <- Hk. now apply in_map.
  - now apply IH.
Qed.

Lemma text_eq_true (col : option string) (s : string) :
  text_eq col (Some s) = true <-> col = Some s.
Proof.
  destruct col as [c|]; simpl.
  - rewrite String.eqb_eq. split; congruence.
  - split; discriminate.
Qed.


(** ** Field deletion *)

(** The three tables [delete_field] names hold no row of the field once it is
    deleted, and the field is gone. *)
Lemma delete_field_clears (d : Database) (field_id : string) (f : Fields.row) :
  In f (fields d) -> Fields.field_id f = field_id ->
  exists after,
    world (delete_field (Some d) field_id) = Some after
    /\ (forall r, In r (fields after) -> Fields.field_id r <> field_id)
    /\ (forall r, In r (crop_seasons after) -> CropSeasons.field_id r <> field_id)
    /\ (forall r, In r (field_operations after) ->
          FieldOperations.field_id r <> field_id)
    /\ (forall r, In r (weather_events after) ->
          WeatherEvents.field_id r <> field_id).
Proof.
  intros Hin Hid. unfold delete_field. simpl.
  destruct (fetchone _) as [field|] eqn:Hsel.
  - eexists. split; [reflexivity|]. simpl.
    repeat split; intros r Hr; apply sql_delete_In in Hr;
      destruct Hr as [_ Hr]; now apply String.eqb_neq.
  - apply fetchone_none in Hsel.
    assert (Hf : In f (sql_select
                         (fun r => String.eqb (Fields.field_id r) field_id)
                         (fields d))).
    { apply sql_select_In. split; [assumption|]. now apply String.eqb_eq. }
    rewrite Hsel in Hf. contradiction.
Qed.

(** C3. Deleting the field of the farm clears the seasons, operations and
    weather events of the field, and the field itself, but the planting made
    on the field and its weeding are still in [planting_records] and
    [field_maintenance], holding the identifier of a field that is no longer
    there: two rows referencing the field remain. *)
Theorem delete_field_leaves_planting_records :
  exists after,
    world (delete_field (Some farm) "F001") = Some after
    /\ flashed (delete_field (Some farm) "F001") = [FieldDeleted "North Valley"]
    /\ fields after = []
    /\ crop_seasons after = []
    /\ field_operations after = []
    /\ weather_events after = []
    /\ planting_records after = [wheat_planting]
    /\ PlantingRecords.field_id wheat_planting = "F001"
    /\ field_maintenance after = [wheat_weeding]
    /\ FieldMaintenance.field_id wheat_weeding = "F001"
    /\ references_to "F001" after = 2%nat.
Proof. eexists. repeat split. Qed.

(** ** Sale locations *)

(** C10. [delete_location] removes a row of [sale_locations] only when it is
    the row of the given identifier and no row of [crop_storage] has its name
    as sale location.  When a crop has, the deletion is refused: the database
    is as before and the one notice flashed is the error naming the location
    and the number of crops.  So a location that a crop uses is still in the
    table afterwards. *)
Theorem delete_location_keeps_locations_in_use (d : Database) (location_id : Z) :
  NoDup (map SaleLocations.location_id (sale_locations d)) ->
  exists after,
    world (delete_location (Some d) location_id) = Some after
    /\ crop_storage after = crop_storage d
    /\ (forall l, In l (sale_locations d) -> in_use d l ->
          In l (sale_locations after))
    /\ (forall l, In l (sale_locations d) ->
          SaleLocations.location_id l = location_id -> in_use d l ->
          after = d
          /\ exists n, (0 < n)%nat
               /\ flashed (delete_location (Some d) location_id)
                  = [LocationInUse (SaleLocations.location_name l) n]
               /\ category_of (LocationInUse (SaleLocations.location_name l) n)
                  = error)
    /\ (forall l, In l (sale_locations d) -> ~ In l (sale_locations after) ->
          SaleLocations.location_id l = location_id /\ ~ in_use d l)
    /\ (forall l, In l (sale_locations after) -> In l (sale_locations d)).
Proof.
  intros Hkey. unfold delete_location. simpl.
  destruct (fetchone _) as [location|] eqn:Hsel.
  - pose proof (fetchone_In _ _ Hsel) as Hloc.
    apply sql_select_In in Hloc. destruct Hloc as [Hloc Hid].
    apply Z.eqb_eq in Hid.
    assert (Hsame : forall l, In l (sale_locations d) ->
              SaleLocations.location_id l = location_id -> l = location).
    { intros l Hl Hlid.
      apply (primary_key SaleLocations.location_id (sale_locations d));
        try assumption. congruence. }
    destruct (Nat.ltb_spec 0 (List.length
                (sql_select
                   (fun c => text_eq (CropStorage.sale_location c)
                               (Some (SaleLocations.location_name location)))
                   (crop_storage d)))) as [Hused|Hfree].
    + exists d. simpl.
      split; [reflexivity|]. split; [reflexivity|]. split; [tauto|].
      split; [|split; [|tauto]].
      * intros l Hl Hlid _. rewrite (Hsame l Hl Hlid).
        split; [reflexivity|]. eexists. split; [exact Hused|]. split; reflexivity.
      * intros l Hl Hnot. contradiction.
    + assert (Hnone : ~ in_use d location).
      { intros [c [Hc Hname]].
        assert (Hc' : In c (sql_select
                     (fun c => text_eq (CropStorage.sale_location c)
                                 (Some (SaleLocations.location_name location)))
                     (crop_storage d))).
        { apply sql_select_In. split; [assumption|]. now apply text_eq_true. }
        destruct (sql_select _ (crop_storage d)); [contradiction|].
        simpl in Hfree. lia. }
      eexists. split; [reflexivity|]. simpl. split; [reflexivity|].
      split; [|split; [|split]].
      * intros l Hl Huse. apply sql_delete_In. split; [assumption|].
        apply Z.eqb_neq. intro Hlid. apply Hnone.
        now rewrite <- (Hsame l Hl Hlid).
      * intros l Hl Hlid Huse. exfalso. apply Hnone.
        now rewrite <- (Hsame l Hl Hlid).
      * intros l Hl Hgone.
        assert (E : SaleLocations.location_id l = location_id).
        { destruct (Z.eq_dec (SaleLocations.location_id l) location_id) as [E|E];
            [assumption|].
          exfalso. apply Hgone. apply sql_delete_In. split; [assumption|].
          now apply Z.eqb_neq. }
        split; [assumption|]. now rewrite (Hsame l Hl E).
      * intros l Hl. apply sql_delete_In in Hl. tauto.
  - apply fetchone_none in Hsel. exists d. simpl.
    split; [reflexivity|]. split; [reflexivity|]. split; [tauto|].
    split; [|split; [|tauto]].
    + intros l Hl Hlid _. exfalso.
      assert (Hl' : In l (sql_select
                  (fun l => Z.eqb (SaleLocations.location_id l) location_id)
                  (sale_locations d))).
      { apply sql_select_In. split; [assumption|]. now apply Z.eqb_eq. }
      rewrite Hsel in Hl'. contradiction.
    + intros l Hl Hnot. contradiction.
Qed.

(** ** Storage: the field editor *)

Lemma member_In (field_name : json) (names : list string) :
  member field_name names = true <->
  exists s, field_name = JString s /\ In s names.
Proof.
  destruct field_name; simpl;
    try (split; [discriminate | intros [s' [E _]]; discriminate]).
  rewrite existsb_exists. split.
  - intros [x [Hx E]]. apply String.eqb_eq in E. subst. now exists x.
  - intros [s' [E Hs]]. inversion E; subst. exists s'. split; [assumption|].
    apply String.eqb_refl.
Qed.

(** C8. A request of [update_storage_field] whose field name is none of
    [quantity_stored], [storage_capacity], [current_market_price],
    [sale_location], [notes] is answered by the error ['Invalid field'] and
    leaves the database, so the storage table, as it was; and a request after
    which the database differs named one of the five. *)
Theorem update_storage_field_allow_list (w : World) (t : clock) (req : body) :
  ((forall s, In s allowed_fields -> json_get "field_name" req <> JString s) ->
     update_storage_field w t req
     = {| world := w; flashed := [];
          reply := Jsonify (JsonError InvalidField) |})
  /\ (world (update_storage_field w t req) <> w ->
        exists s, json_get "field_name" req = JString s /\ In s allowed_fields).
Proof.
  unfold update_storage_field.
  destruct (member (json_get "field_name" req) allowed_fields) eqn:Hm; simpl.
  - apply member_In in Hm. destruct Hm as [s [E Hs]]. split.
    + intros Hno. exfalso. now apply (Hno s Hs).
    + intros _. now exists s.
  - split.
    + reflexivity.
    + intros Hw. now contradiction Hw.
Qed.

(** ** Storage: a crop that is not stored *)



(** ** Floats: the guard and non-negative amounts *)

Lemma gt0_not_zero (x : float) : gt0 x = true -> (x =? 0)%float = false.
Proof.
  unfold gt0. rewrite FloatAxioms.ltb_spec, FloatAxioms.eqb_spec.
  change (Prim2SF 0) with (S754_zero false).
  destruct (Prim2SF x) as [s|s| |s m e]; cbn; try congruence;
    destruct s; cbn; congruence.
Qed.

Lemma zero_not_gt0 (x : float) : (x =? 0)%float = true -> gt0 x = false.
Proof.
  intros H. destruct (gt0 x) eqn:G; [|reflexivity].
  apply gt0_not_zero in G. congruence.
Qed.

Lemma sf_nonneg_leb (a : spec_float) :
  SFleb (S754_zero false) a = true <-> sf_nonneg a.
Proof.
  destruct a as [s|s| |s m e]; cbn; try destruct s; cbn; intuition congruence.
Qed.

Lemma shr_1_nonneg (mrs : shr_record) :
  (0 <= shr_m mrs)%Z -> (0 <= shr_m (shr_1 mrs))%Z.
Proof.
  destruct mrs as [m r s]. simpl.
  destruct m as [|p|p]; simpl; intros H; try lia.
  destruct p; simpl; lia.
Qed.

Lemma iter_shr_1_nonneg (p : positive) : forall mrs,
  (0 <= shr_m mrs)%Z -> (0 <= shr_m (SpecFloat.iter_pos shr_1 p mrs))%Z.
Proof.
  induction p as [p IH|p IH|]; simpl; intros mrs H.
  - apply IH, IH. now apply shr_1_nonneg.
  - now apply IH, IH.
  - now apply shr_1_nonneg.
Qed.

Lemma shr_fexp_nonneg (prec emax m e : Z) (l : location) :
  (0 <= m)%Z -> (0 <= shr_m (fst (shr_fexp prec emax m e l)))%Z.
Proof.
  intros H. unfold shr_fexp, shr.
  assert (H0 : (0 <= shr_m (shr_record_of_loc m l))%Z).
  { destruct l as [|[]]; simpl; assumption. }
  destruct (fexp prec emax (Zdigits2 m + e) - e)%Z; simpl; try assumption.
  now apply iter_shr_1_nonneg.
Qed.

Lemma round_nearest_even_nonneg (m : Z) (l : location) :
  (0 <= m)%Z -> (0 <= round_nearest_even m l)%Z.
Proof.
  intros H. unfold round_nearest_even.
  destruct l as [|[]]; try lia. destruct (IntDef.Z.even m); lia.
Qed.

(** Rounding a non-negative mantissa gives no NaN and no negative number. *)
Lemma binary_round_aux_nonneg (prec emax mx ex : Z) (lx : location) :
  (0 <= mx)%Z -> sf_nonneg (binary_round_aux prec emax false mx ex lx).
Proof.
  intros H. unfold binary_round_aux.
  pose proof (shr_fexp_nonneg prec emax mx ex lx H) as H1.
  destruct (shr_fexp prec emax mx ex lx) as [mrs' e']. simpl in H1.
  pose proof (shr_fexp_nonneg prec emax _ e' loc_Exact
                (round_nearest_even_nonneg _ (loc_of_shr_record mrs') H1)) as H2.
  destruct (shr_fexp prec emax _ e' loc_Exact) as [mrs'' e'']. simpl in H2.
  destruct (shr_m mrs'') as [|p|p]; simpl; try exact I.
  - destruct (e'' <=? emax - prec)%Z; reflexivity.
  - lia.
Qed.

Lemma SFadd_nonneg (prec emax : Z) (a b : spec_float) :
  sf_nonneg a -> sf_nonneg b -> sf_nonneg (SFadd prec emax a b).
Proof.
  destruct a as [sa|sa| |sa ma ea], b as [sb|sb| |sb mb eb]; simpl;
    intros Ha Hb; subst; try exact I; try reflexivity; try contradiction.
  - destruct sa, sb; exact I.
  - unfold cond_Zopp, binary_normalize.
    change (Z.pos ?p + Z.pos ?q)%Z with (Z.pos (p + q)).
    unfold binary_round. destruct (shl_align (_ + _) _ _) as [mz ez].
    apply binary_round_aux_nonneg. lia.
Qed.

(** The sum of two non-negative floats is a non-negative float. *)
Lemma nonneg_add (x y : float) :
  nonneg x = true -> nonneg y = true -> nonneg (x + y) = true.
Proof.
  unfold nonneg. rewrite !FloatAxioms.leb_spec, add_spec.
  change (Prim2SF 0) with (S754_zero false).
  rewrite !sf_nonneg_leb. apply SFadd_nonneg.
Qed.

(** A non-negative float is a number, so SQLite stores it as it is. *)
Lemma nonneg_stored (x : float) : nonneg x = true -> sql_real x = Some x.
Proof.
  unfold nonneg, sql_real, is_nan.
  rewrite FloatAxioms.leb_spec, FloatAxioms.eqb_spec.
  change (Prim2SF 0) with (S754_zero false). rewrite sf_nonneg_leb.
  destruct (Prim2SF x) as [s|s| |s m e]; simpl; intros H; subst;
    try reflexivity; try contradiction.
  unfold SFeqb. simpl. rewrite Z.compare_refl.
  change (PosDef.Pos.compare_cont Eq m m) with (Pos.compare m m).
  now rewrite Pos.compare_refl.
Qed.

(** ** The guarded divisions *)

Lemma no_zero_division_ok {A : Type} (a : A) : no_zero_division (Ok a).
Proof. discriminate. Qed.

Lemma no_zero_division_bind {A B : Type} (m : result A) (k : A -> result B) :
  no_zero_division m -> (forall a, no_zero_division (k a)) ->
  no_zero_division (bind m k).
Proof.
  unfold no_zero_division. destruct m as [a|e]; simpl; intros Hm Hk.
  - apply Hk.
  - intros E. apply Hm. now inversion E.
Qed.

Lemma guarded (n d : float) :
  (if gt0 d then truediv n d else Ok 0%float)
  = Ok (if gt0 d then (n / d)%float else 0%float).
Proof.
  destruct (gt0 d) eqn:G; [|reflexivity].
  unfold truediv. now rewrite (gt0_not_zero d G).
Qed.

Lemma form_float_no_zero_division (k : string) (default : result float) (f : form) :
  no_zero_division default -> no_zero_division (form_float k default f).
Proof.
  unfold form_float. intros H.
  destruct (lookup k f); [|assumption].
  destruct (float_of_str _); discriminate.
Qed.

Lemma form_float_opt_no_zero_division (k : string) (f : form) :
  no_zero_division (form_float_opt k f).
Proof.
  unfold form_float_opt. destruct (truthy _); [|discriminate].
  apply no_zero_division_bind.
  - apply form_float_no_zero_division. discriminate.
  - intros a. discriminate.
Qed.

Lemma not_null_no_zero_division {A : Type} (v : option A) :
  no_zero_division (not_null v).
Proof. destruct v; discriminate. Qed.

Ltac no_zero_division_step :=
  first
    [ apply no_zero_division_ok
    | apply no_zero_division_bind;
      [ first [ apply form_float_no_zero_division; discriminate
              | apply form_float_opt_no_zero_division
              | apply not_null_no_zero_division
              | rewrite guarded; discriminate
              | idtac ]
      | intro ] ].

Lemma add_planting_post_no_zero_division (conn : Database) (f : form) :
  no_zero_division (add_planting_post conn f).
Proof.
  unfold add_planting_post, cost_per_hectare. cbv zeta.
  repeat no_zero_division_step.
Qed.

Lemma add_harvest_post_no_zero_division (conn : Database) (planting_id : Z)
    (planting : PlantingRecords.row) (maintenance : option float) (f : form) :
  no_zero_division (add_harvest_post conn planting_id planting maintenance f).
Proof.
  unfold add_harvest_post, yield_per_hectare, profit_per_hectare,
    break_even_price, roi_percent, total_costs. cbv zeta.
  repeat no_zero_division_step.
  - apply form_float_no_zero_division.
    destruct (PlantingRecords.planted_area_ha planting); discriminate.
  - destruct (PlantingRecords.total_planting_cost planting); discriminate.
  - destruct (gt0 _) eqn:G; [|discriminate].
    unfold truediv. rewrite (gt0_not_zero _ G). discriminate.
Qed.

(** The return on investment: the guard written out. *)
Lemma roi_guarded (n d : float) :
  roi_percent n d = Ok (if gt0 d then (n / d * 100)%float else 0%float).
Proof.
  unfold roi_percent. destruct (gt0 d) eqn:G; [|reflexivity].
  unfold truediv. now rewrite (gt0_not_zero d G).
Qed.

(** C6. Each derived division of the planting and harvest calculators is
    guarded by [denominator > 0]: the result is the quotient (times 100 for
    the return on investment) when the denominator is greater than zero, and
    0 otherwise, so for a denominator that is zero, of either sign, and also
    for one that is negative or no number.  In particular the return on
    investment is 0 when the total costs are 0, whatever the net profit.  No
    planting or harvest submission ends in a division by zero. *)
Theorem divisions_are_guarded (n d : float) :
  cost_per_hectare n d = Ok (if gt0 d then (n / d)%float else 0%float)
  /\ yield_per_hectare n d = Ok (if gt0 d then (n / d)%float else 0%float)
  /\ profit_per_hectare n d = Ok (if gt0 d then (n / d)%float else 0%float)
  /\ roi_percent n d = Ok (if gt0 d then (n / d * 100)%float else 0%float)
  /\ break_even_price n d = Ok (if gt0 d then (n / d)%float else 0%float)
  /\ ((d =? 0)%float = true -> gt0 d = false)
  /\ roi_percent n 0 = Ok 0%float
  /\ (forall conn f, no_zero_division (add_planting_post conn f))
  /\ (forall conn planting_id planting maintenance f,
        no_zero_division
          (add_harvest_post conn planting_id planting maintenance f)).
Proof.
  unfold cost_per_hectare, yield_per_hectare, profit_per_hectare,
    break_even_price.
  rewrite !guarded, roi_guarded.
  repeat (split; [reflexivity|]).
  split; [apply zero_not_gt0|].
  split; [reflexivity|].
  split.
  - apply add_planting_post_no_zero_division.
  - apply add_harvest_post_no_zero_division.
Qed.

(** ** Planting *)

(** Reading a chain of statements that ended well: each one ended well. *)
Ltac invert_ok H :=
  repeat match type of H with
         | bind ?m _ = Ok _ =>
           let E := fresh "E" in
           destruct m eqn:E; cbn [bind] in H; [|discriminate H]
         end.

Lemma planted_post (d after : Database) (f : form) :
  planted d f after -> exists crop, add_planting_post d f = Ok (after, crop).
Proof.
  unfold planted, add_planting. simpl.
  destruct (add_planting_post d f) as [[conn crop]|e]; simpl.
  - intros [Hw _]. inversion Hw. now exists crop.
  - intros [_ Hr]. discriminate.
Qed.

(** C7. A planting submission that succeeds stores as [total_planting_cost]
    the sum, as the handler adds them, of the seven itemized costs read from
    the form, a missing one counting 0.  When the seven are non-negative the
    sum is a number and the column holds exactly it.  The cost per hectare is
    the total divided by the area when the area is greater than zero, and 0
    when the area is zero.  Seed 100, fertilizer 50 and labor 30 give a total
    of 180, and 18 per hectare on 10 hectares. *)
Theorem planting_costs_are_summed (d after : Database) (f : form) :
  planted d f after ->
  exists area seed fertilizer lime labor equipment fuel other row,
    form_float "planted_area_ha" (Ok 0%float) f = Ok area
    /\ form_float "seed_cost" (Ok 0%float) f = Ok seed
    /\ form_float "fertilizer_cost" (Ok 0%float) f = Ok fertilizer
    /\ form_float "lime_cost" (Ok 0%float) f = Ok lime
    /\ form_float "labor_cost" (Ok 0%float) f = Ok labor
    /\ form_float "equipment_cost" (Ok 0%float) f = Ok equipment
    /\ form_float "fuel_cost" (Ok 0%float) f = Ok fuel
    /\ form_float "other_costs" (Ok 0%float) f = Ok other
    /\ inserted (planting_records d) (planting_records after) row
    /\ PlantingRecords.total_planting_cost row
       = sql_real (seed + fertilizer + lime + labor + equipment + fuel + other)
    /\ (nonneg seed = true -> nonneg fertilizer = true -> nonneg lime = true ->
        nonneg labor = true -> nonneg equipment = true -> nonneg fuel = true ->
        nonneg other = true ->
        PlantingRecords.total_planting_cost row
        = Some (seed + fertilizer + lime + labor + equipment + fuel + other)%float)
    /\ (gt0 area = true ->
        PlantingRecords.cost_per_hectare row
        = sql_real ((seed + fertilizer + lime + labor + equipment + fuel + other)
                    / area))
    /\ ((area =? 0)%float = true ->
        PlantingRecords.cost_per_hectare row = Some 0%float)
    /\ total_planting_cost 100 50 0 30 0 0 0 = 180%float
    /\ cost_per_hectare 180 10 = Ok 18%float.
Proof.
  intros Hp. destruct (planted_post _ _ _ Hp) as [crop H].
  unfold add_planting_post in H. cbv zeta in H.
  invert_ok H. inversion H; subst; clear H.
  match goal with
  | Hc : cost_per_hectare _ _ = Ok _ |- _ =>
    unfold cost_per_hectare in Hc; rewrite guarded in Hc;
    inversion Hc; subst; clear Hc
  end.
  do 8 eexists. eexists.
  repeat (split; [reflexivity|]). simpl. unfold total_planting_cost.
  split.
  { intros H1 H2 H3 H4 H5 H6 H7. apply nonneg_stored.
    repeat apply nonneg_add; assumption. }
  split.
  { intros G. now rewrite G. }
  split.
  { intros Z. now rewrite (zero_not_gt0 _ Z). }
  split; reflexivity.
Qed.

(** ** Harvest *)

Lemma harvested_post (d after : Database) (planting_id : Z) (f : form) :
  harvested d planting_id f after ->
  exists planting maintenance profit roi,
    select_planting d planting_id = Some (planting, maintenance)
    /\ add_harvest_post d planting_id planting maintenance f
       = Ok (after, (profit, roi)).
Proof.
  unfold harvested, add_harvest. simpl.
  destruct (select_planting d planting_id) as [[planting maintenance]|]; simpl.
  - destruct (add_harvest_post d planting_id planting maintenance f)
      as [[conn [profit roi]]|e] eqn:E; simpl.
    + intros [Hw _]. inversion Hw; subst.
      exists planting, maintenance, profit, roi. now split.
    + intros [_ Hr]. discriminate.
  - intros [_ Hr]. discriminate.
Qed.

(** The planting selected for a harvest is the planting of that identifier,
    and its maintenance costs are those of the rows tied to it. *)
Lemma select_planting_found (d : Database) (planting_id : Z)
    (planting : PlantingRecords.row) (maintenance : option float) :
  select_planting d planting_id = Some (planting, maintenance) ->
  In planting (planting_records d)
  /\ PlantingRecords.planting_id planting = planting_id
  /\ maintenance = maintenance_costs d planting_id.
Proof.
  unfold select_planting. intros H. apply fetchone_In in H.
  apply in_flat_map in H. destruct H as [p [Hp H]].
  apply sql_select_In in Hp. destruct Hp as [Hp Hid]. apply Z.eqb_eq in Hid.
  apply in_map_iff in H. destruct H as [fd [E _]].
  inversion E; subst. auto.
Qed.

(** A value that passed [NOT NULL] is the value bound. *)
Lemma stored_number (x y : float) :
  not_null (sql_real x) = Ok y -> y = x /\ sql_real x = Some x.
Proof.
  unfold sql_real. destruct (is_nan x); simpl; intros H; inversion H; auto.
Qed.

Lemma stored_text (s : option string) (x : string) :
  not_null s = Ok x -> s = Some x.
Proof. destruct s; simpl; intros H; now inversion H. Qed.

Lemma sql_update_Forall2 {R : Type} (where_ : R -> bool) (set : R -> R)
    (t : list R) :
  Forall2 (fun r r' => r' = if where_ r then set r else r) t
    (sql_update where_ set t).
Proof.
  unfold sql_update. induction t as [|r t IH]; simpl; constructor; auto.
Qed.

(** What a harvest that went through read from the form and the planting, and
    what it wrote. *)
Lemma add_harvest_post_written (d after : Database) (planting_id : Z)
    (planting : PlantingRecords.row) (maintenance : option float) (f : form)
    (profit roi : float) :
  add_harvest_post d planting_id planting maintenance f
  = Ok (after, (profit, roi)) ->
  exists date total_yield area market_price premium labor equipment fuel
         transport drying storage other planting_cost row,
    lookup "harvest_date" f = Some date
    /\ form_float "total_yield_tonnes" (Raise TypeError) f = Ok total_yield
    /\ form_float "market_price_per_tonne" (Ok 0%float) f = Ok market_price
    /\ form_float "price_premium" (Ok 0%float) f = Ok premium
    /\ form_float "harvest_labor_cost" (Ok 0%float) f = Ok labor
    /\ form_float "harvest_equipment_cost" (Ok 0%float) f = Ok equipment
    /\ form_float "harvest_fuel_cost" (Ok 0%float) f = Ok fuel
    /\ form_float "transport_cost" (Ok 0%float) f = Ok transport
    /\ form_float "drying_cost" (Ok 0%float) f = Ok drying
    /\ form_float "storage_cost" (Ok 0%float) f = Ok storage
    /\ form_float "other_harvest_costs" (Ok 0%float) f = Ok other
    /\ PlantingRecords.total_planting_cost planting = Some planting_cost
    /\ inserted (harvest_records d) (harvest_records after) row
    /\ HarvestRecords.planting_id row = planting_id
    /\ HarvestRecords.harvest_date row = date
    /\ HarvestRecords.total_yield_tonnes row = total_yield
    /\ HarvestRecords.harvested_area_ha row = sql_real area
    /\ HarvestRecords.market_price_per_tonne row = sql_real market_price
    /\ HarvestRecords.total_harvest_cost row
       = sql_real (labor + equipment + fuel + transport + drying + storage
                   + other)
    /\ HarvestRecords.gross_revenue row
       = sql_real (total_yield * (market_price + premium))
    /\ HarvestRecords.total_costs row
       = sql_real (planting_cost + or_zero maintenance
                   + (labor + equipment + fuel + transport + drying + storage
                      + other))
    /\ HarvestRecords.net_profit row
       = sql_real (total_yield * (market_price + premium)
                   - (planting_cost + or_zero maintenance
                      + (labor + equipment + fuel + transport + drying
                         + storage + other)))
    /\ crop_storage after
       = sql_update (named (Some (PlantingRecords.crop_type planting)))
           (store_harvest (Some total_yield) (sql_real market_price) (Some date))
           (crop_storage d)
    /\ price_history after = price_history d
    /\ sale_locations after = sale_locations d.
Proof.
  intros H. unfold add_harvest_post in H. cbv zeta in H.
  invert_ok H. inversion H; subst; clear H.
  repeat match goal with
         | Hn : not_null (sql_real _) = Ok _ |- _ =>
           apply stored_number in Hn; destruct Hn as [? Hstored]; subst;
           rewrite Hstored
         | Hn : not_null _ = Ok _ |- _ => apply stored_text in Hn
         | Hc : total_costs _ _ _ = Ok _ |- _ =>
           unfold total_costs in Hc;
           destruct (PlantingRecords.total_planting_cost planting) eqn:?;
           [inversion Hc; subst; clear Hc | discriminate Hc]
         end.
  do 14 eexists.
  split; [eassumption|].
  match goal with
  | |- context [fetchone ?rows] => destruct (fetchone rows) eqn:Hrow
  end; repeat (split; [reflexivity|]); simpl.
  - reflexivity.
  - split; [|split; reflexivity].
    symmetry. apply sql_update_none. apply fetchone_none in Hrow.
    intros r Hr.
    destruct (named (Some (PlantingRecords.crop_type planting)) r) eqn:W;
      [|reflexivity].
    assert (Hin : In r (sql_select
                          (named (Some (PlantingRecords.crop_type planting)))
                          (crop_storage d)))
      by (apply sql_select_In; auto).
    rewrite Hrow in Hin. contradiction.
Qed.



(** C2. A harvest submission that succeeds stores as [gross_revenue] the
    total yield times the sum of market price and premium, and as
    [net_profit] that revenue minus the total costs it stores, whatever the
    inputs, a yield of zero included.  A yield of 50 at a price of 200 with a
    premium of 10 against total costs of 1200 gives a gross revenue of 10500,
    a net profit of 9300, a return of 775.0 percent and a break-even price of
    24.0. *)
Theorem harvest_revenue_and_profit (d after : Database) (planting_id : Z)
    (f : form) :
  harvested d planting_id f after ->
  exists total_yield market_price premium costs row,
    form_float "total_yield_tonnes" (Raise TypeError) f = Ok total_yield
    /\ form_float "market_price_per_tonne" (Ok 0%float) f = Ok market_price
    /\ form_float "price_premium" (Ok 0%float) f = Ok premium
    /\ inserted (harvest_records d) (harvest_records after) row
    /\ HarvestRecords.total_yield_tonnes row = total_yield
    /\ HarvestRecords.gross_revenue row
       = sql_real (total_yield * (market_price + premium))
    /\ HarvestRecords.total_costs row = sql_real costs
    /\ HarvestRecords.net_profit row
       = sql_real (total_yield * (market_price + premium) - costs)
    /\ gross_revenue 50 200 10 = 10500%float
    /\ net_profit 10500 1200 = 9300%float
    /\ roi_percent 9300 1200 = Ok 775%float
    /\ break_even_price 1200 50 = Ok 24%float.
Proof.
  intros Hh.
  destruct (harvested_post _ _ _ _ Hh)
    as (planting & maintenance & profit & roi & Hsel & Hpost).
  destruct (add_harvest_post_written _ _ _ _ _ _ _ _ Hpost)
    as (date & total_yield & area & market_price & premium & labor & equipment
        & fuel & transport & drying & storage & other & planting_cost & row
        & _ & Hyield & Hprice & Hpremium & _ & _ & _ & _ & _ & _ & _ & _ & Hins
        & _ & _ & Hryield & _ & _ & _ & Hgross & Hcosts & Hnet & _).
  exists total_yield, market_price, premium.
  eexists. exists row.
  repeat (split; [eassumption|]).
  repeat split.
Qed.


(** A harvest leaves the price history as it was, though it sets the price
    of the crop in the storage table. *)
Lemma harvest_keeps_price_history (d after : Database) (planting_id : Z)
    (f : form) :
  harvested d planting_id f after -> price_history after = price_history d.
Proof.
  intros Hh.
  destruct (harvested_post _ _ _ _ Hh)
    as (planting & maintenance & profit & roi & Hsel & Hpost).
  destruct (add_harvest_post_written _ _ _ _ _ _ _ _ Hpost)
    as (date & total_yield & area & market_price & premium & labor & equipment
        & fuel & transport & drying & storage & other & planting_cost & row
        & _ & _ & _ & _ & _ & _ & _ & _ & _ & _ & _ & _ & _
        & _ & _ & _ & _ & _ & _ & _ & _ & _ & _ & Hhistory & _).
  assumption.
Qed.

(** ** The price history *)

(** [update_storage_field] on the price of a stored crop: a new price that
    differs from the stored one is logged in [price_history], at the date of
    the request; one that equals it is not. *)
Lemma price_change_is_logged (d after : Database) (t : clock) (crop : string)
    (x : float) (old : CropStorage.row) (read : option CropStorage.row) :
  fetchone (sql_select (named (Some crop)) (crop_storage d)) = Some old ->
  update_storage_statements d t (JString crop) "current_market_price" (Numeric x)
  = Ok (after, read) ->
  (py_ne (CropStorage.current_market_price old) x = true ->
     exists row,
       inserted (price_history d) (price_history after) row
       /\ PriceHistory.crop_name row = crop
       /\ PriceHistory.price row = x
       /\ PriceHistory.price_date row = today t)
  /\ (py_ne (CropStorage.current_market_price old) x = false ->
        price_history after = price_history d).
Proof.
  intros Hold H. unfold update_storage_statements in H. simpl in H.
  rewrite Hold in H.
  destruct (py_ne (CropStorage.current_market_price old) x); simpl in H.
  - unfold insert_price in H. simpl in H.
    destruct (not_null (sql_real x)) as [price|e] eqn:Hprice; simpl in H;
      [|discriminate H].
    apply stored_number in Hprice. destruct Hprice as [-> _].
    inversion H; subst; clear H. split; [|discriminate].
    intros _. eexists. repeat split.
  - inversion H; subst; clear H. split; [discriminate|].
    intros _. reflexivity.
Qed.

(** ** Field deletion: what is kept *)

(** X1. [delete_field] on an identifier that no field carries answers
    ['Field not found!'] and deletes nothing, also not the rows that carry
    the identifier. *)
Theorem delete_field_unknown (d : Database) (field_id : string) :
  (forall f, In f (fields d) -> Fields.field_id f <> field_id) ->
  delete_field (Some d) field_id
  = {| world := Some d; flashed := [FieldNotFound];
       reply := Redirect "fields_list" None |}.
Proof.
  intros Hnone. unfold delete_field. simpl.
  rewrite sql_select_none; [reflexivity|].
  intros f Hf. apply String.eqb_neq. now apply Hnone.
Qed.

Lemma delete_field_frame (d after : Database) (field_id : string) :
  world (delete_field (Some d) field_id) = Some after ->
  planting_records after = planting_records d
  /\ field_maintenance after = field_maintenance d
  /\ harvest_records after = harvest_records d
  /\ crop_storage after = crop_storage d
  /\ sale_locations after = sale_locations d
  /\ price_history after = price_history d.
Proof.
  unfold delete_field. simpl.
  destruct (fetchone _) as [field|]; simpl; intros H; inversion H; subst;
    repeat split.
Qed.

(** X2. [delete_field] removes nothing of another field: the fields,
    seasons, operations and weather events of other identifiers are kept, and
    the six other tables are as they were. *)
Theorem delete_field_keeps_the_rest (d after : Database) (field_id : string) :
  world (delete_field (Some d) field_id) = Some after ->
  (forall r, In r (fields d) -> Fields.field_id r <> field_id ->
     In r (fields after))
  /\ (forall r, In r (crop_seasons d) -> CropSeasons.field_id r <> field_id ->
        In r (crop_seasons after))
  /\ (forall r, In r (field_operations d) ->
        FieldOperations.field_id r <> field_id -> In r (field_operations after))
  /\ (forall r, In r (weather_events d) ->
        WeatherEvents.field_id r <> field_id -> In r (weather_events after))
  /\ planting_records after = planting_records d
  /\ field_maintenance after = field_maintenance d
  /\ harvest_records after = harvest_records d
  /\ crop_storage after = crop_storage d
  /\ sale_locations after = sale_locations d
  /\ price_history after = price_history d.
Proof.
  unfold delete_field. simpl.
  destruct (fetchone _) as [field|]; simpl; intros H; inversion H; subst;
    clear H; simpl.
  - repeat split; intros r Hr Hid; apply sql_delete_In;
      (split; [assumption | now apply String.eqb_neq]).
  - repeat split; auto.
Qed.

(** ** Without the database file *)

(** X3. When the database file is missing no handler creates it: each one
    answers with its redirect, or with its JSON error, and the file is still
    missing. *)
Theorem no_database_file (t : clock) (method : http_method) (id : Z)
    (name : string) (f : form) (req : body) :
  delete_field None name
  = {| world := None; flashed := [DatabaseNotFound];
       reply := Redirect "index" None |}
  /\ delete_location None id
     = {| world := None; flashed := [DatabaseNotFound];
          reply := Redirect "manage_locations" None |}
  /\ add_planting None method f
     = {| world := None; flashed := [DatabaseNotFound];
          reply := Redirect "planting_dashboard" None |}
  /\ add_harvest None method id f
     = {| world := None; flashed := [DatabaseNotFound];
          reply := Redirect "planting_dashboard" None |}
  /\ add_maintenance None method id f
     = {| file := None; notes := [inl DatabaseNotFound];
          answer := Redirect "planting_dashboard" None |}
  /\ delete_operation None id
     = {| file := None; notes := [inl DatabaseNotFound];
          answer := Redirect "operations_list" None |}
  /\ edit_crop_storage None t method name f
     = {| file := None; notes := [inl DatabaseNotFound]; answer := Dashboard |}
  /\ get_sale_locations None
     = {| file := None; notes := [inl DatabaseNotFound];
          answer := LocationsError ConnectionFailed |}
  /\ world (update_quantity None t req) = None
  /\ world (update_storage_field None t req) = None
  /\ is_success match reply (update_quantity None t req) with
                | Jsonify j => j
                | _ => JsonError ConnectionFailed
                end = false
  /\ is_success match reply (update_storage_field None t req) with
                | Jsonify j => j
                | _ => JsonError ConnectionFailed
                end = false.
Proof.
  repeat (split; [reflexivity|]).
  split; [|split; [|split]].
  - unfold update_quantity. destruct (py_float _); reflexivity.
  - unfold update_storage_field. destruct (member _ _); reflexivity.
  - unfold update_quantity. destruct (py_float _); reflexivity.
  - unfold update_storage_field. destruct (member _ _); reflexivity.
Qed.

(** ** Sale locations: what is deleted *)

(** X4. [delete_location] on the identifier of a location that no crop uses
    deletes that location and no other, and says so. *)
Theorem delete_location_removes_unused (d : Database) (l : SaleLocations.row) :
  NoDup (map SaleLocations.location_id (sale_locations d)) ->
  In l (sale_locations d) ->
  ~ in_use d l ->
  exists after,
    delete_location (Some d) (SaleLocations.location_id l)
    = {| world := Some after;
         flashed := [LocationDeleted (SaleLocations.location_name l)];
         reply := Redirect "manage_locations" None |}
    /\ ~ In l (sale_locations after)
    /\ (forall l', In l' (sale_locations d) -> l' <> l ->
          In l' (sale_locations after))
    /\ crop_storage after = crop_storage d.
Proof.
  intros Hkey Hl Hfree. unfold delete_location. simpl.
  destruct (fetchone _) as [location|] eqn:Hsel.
  - pose proof (fetchone_In _ _ Hsel) as Hloc.
    apply sql_select_In in Hloc. destruct Hloc as [Hloc Hid].
    apply Z.eqb_eq in Hid.
    assert (location = l) as ->
      by (apply (primary_key SaleLocations.location_id (sale_locations d));
          assumption).
    rewrite sql_select_none.
    + simpl. eexists. split; [reflexivity|]. simpl.
      split; [|split; [|reflexivity]].
      * intros Hin. apply sql_delete_In in Hin. destruct Hin as [_ Hin].
        apply Z.eqb_neq in Hin. now apply Hin.
      * intros l' Hl' Hne. apply sql_delete_In. split; [assumption|].
        apply Z.eqb_neq. intros E. apply Hne.
        now apply (primary_key SaleLocations.location_id (sale_locations d)).
    + intros c Hc.
      destruct (text_eq (CropStorage.sale_location c)
                  (Some (SaleLocations.location_name l))) eqn:E;
        [|reflexivity].
      exfalso. apply Hfree. exists c. split; [assumption|].
      now apply text_eq_true.
  - apply fetchone_none in Hsel. exfalso.
    assert (Hl' : In l (sql_select
                (fun x => Z.eqb (SaleLocations.location_id x)
                            (SaleLocations.location_id l))
                (sale_locations d))).
    { apply sql_select_In. split; [assumption|]. apply Z.eqb_refl. }
    rewrite Hsel in Hl'. contradiction.
Qed.

(** X5. [delete_location] on an identifier that no location carries answers
    ['Location not found!'] and changes nothing. *)
Theorem delete_location_unknown (d : Database) (location_id : Z) :
  (forall l, In l (sale_locations d) ->
     SaleLocations.location_id l <> location_id) ->
  delete_location (Some d) location_id
  = {| world := Some d; flashed := [LocationNotFound];
       reply := Redirect "manage_locations" None |}.
Proof.
  intros Hnone. unfold delete_location. simpl.
  rewrite sql_select_none; [reflexivity|].
  intros l Hl. apply Z.eqb_neq. now apply Hnone.
Qed.

(** ** Harvest: the planting and the other tables *)

Lemma add_harvest_post_frame (d after : Database) (planting_id : Z)
    (planting : PlantingRecords.row) (maintenance : option float) (f : form)
    (profit roi : float) :
  add_harvest_post d planting_id planting maintenance f
  = Ok (after, (profit, roi)) ->
  planting_records after
  = sql_update (fun p => Z.eqb (PlantingRecords.planting_id p) planting_id)
      (with_status (Some "Harvested")) (planting_records d)
  /\ fields after = fields d
  /\ crop_seasons after = crop_seasons d
  /\ field_operations after = field_operations d
  /\ weather_events after = weather_events d
  /\ field_maintenance after = field_maintenance d.
Proof.
  intros H. unfold add_harvest_post in H. cbv zeta in H.
  invert_ok H. inversion H; subst; clear H.
  match goal with
  | |- context [fetchone ?rows] => destruct (fetchone rows)
  end; repeat split.
Qed.

(** X6. A harvest that goes through sets the status of the planting of the
    given identifier to ['Harvested'], keeping its other columns, leaves
    every other planting as it was, and writes nothing to the fields,
    seasons, operations, weather events, maintenance records, sale locations
    and price history. *)
Theorem harvest_marks_the_planting (d after : Database) (planting_id : Z)
    (f : form) :
  harvested d planting_id f after ->
  Forall2
    (fun p p' =>
       (PlantingRecords.planting_id p = planting_id ->
          p' = with_status (Some "Harvested") p
          /\ PlantingRecords.status p' = Some "Harvested"
          /\ PlantingRecords.planting_id p' = planting_id
          /\ PlantingRecords.crop_type p' = PlantingRecords.crop_type p
          /\ PlantingRecords.total_planting_cost p'
             = PlantingRecords.total_planting_cost p)
       /\ (PlantingRecords.planting_id p <> planting_id -> p' = p))
    (planting_records d) (planting_records after)
  /\ fields after = fields d
  /\ crop_seasons after = crop_seasons d
  /\ field_operations after = field_operations d
  /\ weather_events after = weather_events d
  /\ field_maintenance after = field_maintenance d
  /\ sale_locations after = sale_locations d
  /\ price_history after = price_history d.
Proof.
  intros Hh.
  destruct (harvested_post _ _ _ _ Hh)
    as (planting & maintenance & profit & roi & Hsel & Hpost).
  destruct (add_harvest_post_frame _ _ _ _ _ _ _ _ Hpost)
    as (Hp & Hf & Hs & Ho & Hw & Hm).
  destruct (add_harvest_post_written _ _ _ _ _ _ _ _ Hpost)
    as (date & total_yield & area & market_price & premium & labor & equipment
        & fuel & transport & drying & storage & other & planting_cost & row
        & _ & _ & _ & _ & _ & _ & _ & _ & _ & _ & _ & _ & _
        & _ & _ & _ & _ & _ & _ & _ & _ & _ & _ & Hhistory & Hlocations).
  split; [|repeat split; assumption]. rewrite Hp.
  eapply Forall2_impl; [|apply sql_update_Forall2].
  intros p p' Hpp. simpl in Hpp.
  destruct (Z.eqb_spec (PlantingRecords.planting_id p) planting_id) as [E|E];
    subst p'.
  - split; [intros _; repeat split; assumption | intros N; contradiction].
  - split; [intros N; contradiction | reflexivity].
Qed.

(** X7. A harvest form without [total_yield_tonnes] is refused with the
    [TypeError] of [float(None)], and one without [harvest_date] is refused
    too: the error is flashed, the form is shown again and the database is as
    it was. *)
Theorem harvest_needs_yield_and_date (d : Database) (planting_id : Z)
    (planting : PlantingRecords.row) (maintenance : option float) (f : form) :
  select_planting d planting_id = Some (planting, maintenance) ->
  (lookup "total_yield_tonnes" f = None ->
     add_harvest (Some d) POST planting_id f
     = {| world := Some d; flashed := [ErrorRecordingHarvest TypeError];
          reply := Render "harvest/add.html" |})
  /\ (lookup "harvest_date" f = None ->
        exists e,
          add_harvest (Some d) POST planting_id f
          = {| world := Some d; flashed := [ErrorRecordingHarvest e];
               reply := Render "harvest/add.html" |}).
Proof.
  intros Hsel. unfold add_harvest. simpl. rewrite Hsel. split.
  - intros Hmiss. unfold add_harvest_post, form_float. rewrite Hmiss.
    reflexivity.
  - intros Hmiss.
    destruct (add_harvest_post d planting_id planting maintenance f)
      as [[after [profit roi]]|e] eqn:Hpost.
    + destruct (add_harvest_post_written _ _ _ _ _ _ _ _ Hpost)
        as (date & rest). destruct rest as (ty & rest).
      destruct rest as (? & ? & ? & ? & ? & ? & ? & ? & ? & ? & ? & ? & Hd & _).
      congruence.
    + now exists e.
Qed.

(** Whether the [try] block of [add_harvest] goes through depends on the
    form, on the area and the cost of the planting and on its maintenance
    costs, not on the rest of the database. *)
Lemma harvest_goes_through (d d' after : Database) (planting_id : Z)
    (planting planting' : PlantingRecords.row) (maintenance : option float)
    (f : form) (profit roi : float) :
  add_harvest_post d planting_id planting maintenance f
  = Ok (after, (profit, roi)) ->
  PlantingRecords.planted_area_ha planting'
  = PlantingRecords.planted_area_ha planting ->
  PlantingRecords.total_planting_cost planting'
  = PlantingRecords.total_planting_cost planting ->
  exists after',
    add_harvest_post d' planting_id planting' maintenance f
    = Ok (after', (profit, roi)).
Proof.
  intros Hpost Harea Hcost.
  unfold add_harvest_post in *. cbv zeta in *. rewrite Harea, Hcost.
  repeat match type of Hpost with
         | bind ?m _ = Ok _ =>
           destruct m; cbn [bind] in Hpost |- *; [|discriminate Hpost]
         end.
  inversion Hpost; subst. eexists. reflexivity.
Qed.

Lemma fetchone_map {A B : Type} (g : A -> B) (l : list A) :
  fetchone (map g l) = option_map g (fetchone l).
Proof. destruct l; reflexivity. Qed.

(** The planting found once its status is set: the same planting, with the
    status. *)
Lemma select_planting_marked (d after : Database) (planting_id id : Z)
    (s : option string) :
  planting_records after
  = sql_update (fun p => Z.eqb (PlantingRecords.planting_id p) id)
      (with_status s) (planting_records d) ->
  fields after = fields d ->
  field_maintenance after = field_maintenance d ->
  select_planting after planting_id
  = option_map
      (fun pm => ((if Z.eqb (PlantingRecords.planting_id (fst pm)) id
                   then with_status s (fst pm) else fst pm), snd pm))
      (select_planting d planting_id).
Proof.
  intros Hp Hf Hm. unfold select_planting, maintenance_costs.
  rewrite Hp, Hf, Hm. clear Hp Hf Hm. rewrite <- fetchone_map. f_equal.
  unfold sql_update, sql_select.
  induction (planting_records d) as [|p l IH]; simpl; [reflexivity|].
  destruct (Z.eqb (PlantingRecords.planting_id p) id) eqn:Eid; simpl.
  - destruct (Z.eqb (PlantingRecords.planting_id p) planting_id); simpl.
    + rewrite map_app, IH. f_equal. rewrite map_map. simpl.
      rewrite Eid. reflexivity.
    + apply IH.
  - destruct (Z.eqb (PlantingRecords.planting_id p) planting_id); simpl.
    + rewrite map_app, IH. f_equal. rewrite map_map. simpl.
      rewrite Eid. reflexivity.
    + apply IH.
Qed.

(** X8. [add_harvest] does not look at the status of the planting: the same
    form submitted again after a harvest goes through again, and adds the
    yield to the stored quantity of the crop once more. *)
Theorem harvest_can_be_repeated (d after : Database) (planting_id : Z) (f : form) :
  harvested d planting_id f after ->
  exists planting total_yield again,
    In planting (planting_records d)
    /\ form_float "total_yield_tonnes" (Raise TypeError) f = Ok total_yield
    /\ harvested after planting_id f again
    /\ List.length (harvest_records again)
       = S (S (List.length (harvest_records d)))
    /\ Forall2
         (fun r r' =>
            (CropStorage.crop_name r = PlantingRecords.crop_type planting ->
               CropStorage.quantity_stored r'
               = sql_add (sql_add (CropStorage.quantity_stored r)
                            (Some total_yield)) (Some total_yield))
            /\ (CropStorage.crop_name r <> PlantingRecords.crop_type planting ->
                  r' = r))
         (crop_storage d) (crop_storage again).
Proof.
  intros Hh.
  destruct (harvested_post _ _ _ _ Hh)
    as (planting & maintenance & profit & roi & Hsel & Hpost).
  destruct (select_planting_found _ _ _ _ Hsel) as (Hin & Hid & _).
  destruct (add_harvest_post_frame _ _ _ _ _ _ _ _ Hpost)
    as (Hp & Hf & _ & _ & _ & Hm).
  destruct (harvest_goes_through d after after planting_id planting
              (with_status (Some "Harvested") planting) maintenance f profit roi
              Hpost eq_refl eq_refl) as [again Hagain].
  assert (Hsel' : select_planting after planting_id
                  = Some (with_status (Some "Harvested") planting, maintenance)).
  { rewrite (select_planting_marked d after planting_id planting_id _ Hp Hf Hm).
    rewrite Hsel. simpl. rewrite Hid, Z.eqb_refl. reflexivity. }
  destruct (add_harvest_post_written _ _ _ _ _ _ _ _ Hpost)
    as (date & total_yield & area & market_price & premium & labor & equipment
        & fuel & transport & drying & storage & other & planting_cost & row
        & Hdate & Hyield & Hprice & _ & _ & _ & _ & _ & _ & _ & _ & _ & Hins
        & _ & _ & _ & _ & _ & _ & _ & _ & _ & Hstore & _).
  destruct (add_harvest_post_written _ _ _ _ _ _ _ _ Hagain)
    as (date' & total_yield' & area' & market_price' & premium' & labor'
        & equipment' & fuel' & transport' & drying' & storage' & other'
        & planting_cost' & row'
        & Hdate' & Hyield' & Hprice' & _ & _ & _ & _ & _ & _ & _ & _ & _ & Hins'
        & _ & _ & _ & _ & _ & _ & _ & _ & _ & Hstore' & _).
  assert (total_yield' = total_yield) as -> by congruence.
  exists planting, total_yield, again.
  split; [assumption|]. split; [assumption|]. split.
  { unfold harvested, add_harvest. simpl. rewrite Hsel', Hagain. now split. }
  split.
  { unfold inserted in Hins, Hins'. rewrite Hins', Hins.
    rewrite !length_app. simpl. lia. }
  rewrite Hstore', Hstore. simpl.
  unfold sql_update. rewrite map_map.
  generalize (crop_storage d) as l. clear. intros l.
  induction l as [|r l IH]; simpl; constructor; [|exact IH].
  unfold named, text_eq.
  destruct (String.eqb_spec (CropStorage.crop_name r)
              (PlantingRecords.crop_type planting)) as [E|E]; simpl.
  - rewrite E, String.eqb_refl. simpl.
    split; [reflexivity | intros N; contradiction].
  - apply String.eqb_neq in E. rewrite E.
    split; [intros N; apply String.eqb_neq in E; contradiction | reflexivity].
Qed.

(** ** Planting: what is stored, and found again *)

Lemma next_id_fresh (ids : list Z) (x : Z) : In x ids -> (x < next_id ids)%Z.
Proof.
  unfold next_id. induction ids as [|y ids IH]; simpl; [contradiction|].
  intros [->|H].
  - lia.
  - specialize (IH H). lia.
Qed.

Lemma add_planting_post_written (d after : Database) (f : form) (crop : string) :
  add_planting_post d f = Ok (after, crop) ->
  exists field_id date row,
    lookup "field_id" f = Some field_id
    /\ lookup "crop_type" f = Some crop
    /\ lookup "planting_date" f = Some date
    /\ inserted (planting_records d) (planting_records after) row
    /\ PlantingRecords.planting_id row
       = next_id (map PlantingRecords.planting_id (planting_records d))
    /\ PlantingRecords.field_id row = field_id
    /\ PlantingRecords.crop_type row = crop
    /\ PlantingRecords.planting_date row = date
    /\ PlantingRecords.status row = Some "Active"
    /\ fields after = fields d
    /\ field_maintenance after = field_maintenance d
    /\ harvest_records after = harvest_records d
    /\ crop_storage after = crop_storage d.
Proof.
  intros H. unfold add_planting_post in H. cbv zeta in H.
  invert_ok H. inversion H; subst; clear H.
  repeat match goal with
         | Hn : not_null _ = Ok _ |- _ => apply stored_text in Hn
         end.
  do 3 eexists. repeat (split; [eassumption|]). repeat split.
Qed.

(** The planting just inserted is the one planting of its identifier. *)
Lemma select_inserted_planting (d after : Database) (row : PlantingRecords.row) :
  inserted (planting_records d) (planting_records after) row ->
  PlantingRecords.planting_id row
  = next_id (map PlantingRecords.planting_id (planting_records d)) ->
  sql_select
    (fun p => Z.eqb (PlantingRecords.planting_id p)
                (PlantingRecords.planting_id row))
    (planting_records after) = [row].
Proof.
  unfold inserted, sql_select. intros -> Hid. rewrite filter_app. simpl.
  rewrite Z.eqb_refl.
  replace (filter _ (planting_records d)) with (@nil PlantingRecords.row);
    [reflexivity|].
  symmetry. apply (sql_select_none _ (planting_records d)).
  intros p Hp. apply Z.eqb_neq.
  assert (PlantingRecords.planting_id p
          < next_id (map PlantingRecords.planting_id (planting_records d)))%Z
    by (apply next_id_fresh; now apply in_map).
  lia.
Qed.

(** X9. A planting submission that goes through appends one planting with
    the field, the crop type and the date of the form, the status ['Active']
    and an identifier greater than every identifier in the table; when the
    field of the form is a field of the database, [add_harvest] finds this
    planting under its identifier. *)
Theorem planting_is_found (d after : Database) (f : form) :
  planted d f after ->
  exists row,
    inserted (planting_records d) (planting_records after) row
    /\ lookup "field_id" f = Some (PlantingRecords.field_id row)
    /\ lookup "crop_type" f = Some (PlantingRecords.crop_type row)
    /\ lookup "planting_date" f = Some (PlantingRecords.planting_date row)
    /\ PlantingRecords.status row = Some "Active"
    /\ (forall p, In p (planting_records d) ->
          (PlantingRecords.planting_id p < PlantingRecords.planting_id row)%Z)
    /\ ((exists fd, In fd (fields d)
           /\ Fields.field_id fd = PlantingRecords.field_id row) ->
        select_planting after (PlantingRecords.planting_id row)
        = Some (row, maintenance_costs d (PlantingRecords.planting_id row))).
Proof.
  intros Hp. destruct (planted_post _ _ _ Hp) as [crop H].
  destruct (add_planting_post_written _ _ _ _ H)
    as (field_id & date & row & Hf & Hc & Hd & Hins & Hid & Hrf & Hrc & Hrd
        & Hrs & Hfields & Hmaint & _).
  exists row. subst field_id crop date.
  repeat (split; [assumption|]). split.
  - intros p Hin. rewrite Hid. apply next_id_fresh. now apply in_map.
  - intros (fd & Hfd & Hfid). unfold select_planting, maintenance_costs.
    rewrite (select_inserted_planting d after row Hins Hid). simpl.
    rewrite app_nil_r, Hfields, Hmaint.
    assert (Hin : In fd (sql_select
                     (fun x => String.eqb (PlantingRecords.field_id row)
                                 (Fields.field_id x)) (fields d))).
    { apply sql_select_In. split; [assumption|]. apply String.eqb_eq.
      now symmetry. }
    destruct (sql_select _ (fields d)); [contradiction|reflexivity].
Qed.

(** X10. [add_planting] does not look the field up: a planting for a field
    that is not in [fields] is stored all the same, and [add_harvest] then
    answers ['Planting record not found!'] for it, whatever the form. *)
Theorem stray_planting_is_stored (d after : Database) (f : form) (field_id : string) :
  planted d f after ->
  lookup "field_id" f = Some field_id ->
  (forall fd, In fd (fields d) -> Fields.field_id fd <> field_id) ->
  exists row,
    inserted (planting_records d) (planting_records after) row
    /\ PlantingRecords.field_id row = field_id
    /\ forall method f',
         add_harvest (Some after) method (PlantingRecords.planting_id row) f'
         = {| world := Some after; flashed := [PlantingNotFound];
              reply := Redirect "planting_dashboard" None |}.
Proof.
  intros Hp Hfield Hnone. destruct (planted_post _ _ _ Hp) as [crop H].
  destruct (add_planting_post_written _ _ _ _ H)
    as (field_id' & date & row & Hf & Hc & Hd & Hins & Hid & Hrf & Hrc & Hrd
        & Hrs & Hfields & Hmaint & _).
  assert (field_id' = field_id) as -> by congruence.
  exists row. split; [assumption|]. split; [assumption|].
  intros method f'. unfold add_harvest. simpl.
  replace (select_planting after (PlantingRecords.planting_id row))
    with (@None (PlantingRecords.row * option float)); [reflexivity|].
  symmetry. unfold select_planting.
  rewrite (select_inserted_planting d after row Hins Hid). simpl.
  rewrite Hfields, sql_select_none; [reflexivity|].
  intros fd Hfd. apply String.eqb_neq. rewrite Hrf. intros E.
  now apply (Hnone fd Hfd).
Qed.

(** X11. A planting form without [field_id], without [crop_type] or without
    [planting_date] is refused: an error is flashed, the form is shown again
    and the database is as it was. *)
Theorem planting_needs_field_crop_and_date (d : Database) (f : form) :
  lookup "field_id" f = None \/ lookup "crop_type" f = None
  \/ lookup "planting_date" f = None ->
  exists e,
    add_planting (Some d) POST f
    = {| world := Some d; flashed := [ErrorAddingPlanting e];
         reply := Render "planting/add.html" |}.
Proof.
  intros Hmiss. unfold add_planting. simpl.
  destruct (add_planting_post d f) as [[after crop]|e] eqn:H.
  - destruct (add_planting_post_written _ _ _ _ H)
      as (field_id & date & row & Hf & Hc & Hd & _).
    destruct Hmiss as [E|[E|E]]; congruence.
  - now exists e.
Qed.

(** ** Harvest after a field deletion *)

(** X12. Once [delete_field] has deleted a field, [add_harvest] answers
    ['Planting record not found!'] for the plantings of that field, which
    are still in [planting_records]. *)
Theorem harvest_after_field_deletion (d after : Database) (field_id : string)
    (fd : Fields.row) (planting_id : Z) (method : http_method) (f : form) :
  In fd (fields d) -> Fields.field_id fd = field_id ->
  world (delete_field (Some d) field_id) = Some after ->
  (forall p, In p (planting_records d) ->
     PlantingRecords.planting_id p = planting_id ->
     PlantingRecords.field_id p = field_id) ->
  planting_records after = planting_records d
  /\ add_harvest (Some after) method planting_id f
     = {| world := Some after; flashed := [PlantingNotFound];
          reply := Redirect "planting_dashboard" None |}.
Proof.
  intros Hfd Hid Hw Hplant.
  destruct (delete_field_clears d field_id fd Hfd Hid)
    as (after' & Hw' & Hgone & _).
  rewrite Hw in Hw'. inversion Hw'; subst after'. clear Hw'.
  destruct (delete_field_frame d after field_id Hw) as (Hp & _).
  split; [assumption|].
  unfold add_harvest. simpl.
  replace (select_planting after planting_id)
    with (@None (PlantingRecords.row * option float)); [reflexivity|].
  symmetry. unfold select_planting. rewrite Hp.
  revert Hplant. generalize (planting_records d) as l.
  induction l as [|p l IH]; simpl; intros Hplant; [reflexivity|].
  destruct (Z.eqb_spec (PlantingRecords.planting_id p) planting_id) as [E|E];
    simpl.
  - rewrite (sql_select_none _ (fields after)).
    + simpl. apply IH. intros q Hq. apply Hplant. now right.
    + intros x Hx. apply String.eqb_neq.
      rewrite (Hplant p (or_introl eq_refl) E). intros E'.
      now apply (Hgone x Hx).
  - apply IH. intros q Hq. apply Hplant. now right.
Qed.

(** ** Storage: the inline edits of a stored crop *)

(** X13. [update_quantity] on a crop name sets the stored quantity of the
    rows of that name to the quantity of the request and stamps them; it
    leaves their price, capacity and location, every other row and the price
    history as they were, and answers with the quantity times the price of
    the crop. *)
Theorem update_quantity_sets_the_quantity (d : Database) (t : clock) (req : body)
    (crop : string) (q : float) :
  json_get "crop_name" req = JString crop ->
  py_float match lookup "quantity" req with
           | Some v => v
           | None => JNumber 0
           end = Ok q ->
  exists after,
    world (update_quantity (Some d) t req) = Some after
    /\ Forall2
         (fun r r' =>
            (CropStorage.crop_name r = crop ->
               CropStorage.quantity_stored r' = sql_real q
               /\ CropStorage.updated_date r' = Some (now t)
               /\ CropStorage.crop_name r' = crop
               /\ CropStorage.current_market_price r'
                  = CropStorage.current_market_price r
               /\ CropStorage.storage_capacity r'
                  = CropStorage.storage_capacity r
               /\ CropStorage.sale_location r' = CropStorage.sale_location r
               /\ CropStorage.last_price_update r'
                  = CropStorage.last_price_update r)
            /\ (CropStorage.crop_name r <> crop -> r' = r))
         (crop_storage d) (crop_storage after)
    /\ price_history after = price_history d
    /\ (forall old,
          fetchone (sql_select (named (Some crop)) (crop_storage d)) = Some old ->
          reply (update_quantity (Some d) t req)
          = Jsonify (JsonQuantity
                       (sql_mul (sql_real q)
                          (CropStorage.current_market_price old)))).
Proof.
  intros Hcrop Hq. unfold update_quantity. rewrite Hq, Hcrop. simpl.
  eexists. split; [reflexivity|]. simpl. split; [|split; [reflexivity|]].
  - eapply Forall2_impl; [|apply sql_update_Forall2].
    intros r r' Hr. simpl in Hr. unfold named, text_eq in Hr.
    destruct (String.eqb_spec (CropStorage.crop_name r) crop) as [E|E];
      subst r'.
    + split; [intros _; repeat split; assumption | intros N; contradiction].
    + split; [intros N; contradiction | reflexivity].
  - intros old Hold. unfold sql_update, sql_select in *.
    revert Hold. generalize (crop_storage d) as l.
    induction l as [|r l IH]; simpl; [discriminate|].
    destruct (named (Some crop) r) eqn:E; simpl.
    + unfold named in *. simpl in *. rewrite E. simpl.
      intros H. inversion H; subst. reflexivity.
    + rewrite E. exact IH.
Qed.

(** X14. [update_storage_field] on a numeric field with a string that
    [float] does not read answers ['Invalid numeric value'], and with no
    value at all answers with the text of the [TypeError]; neither changes
    the database. *)
Theorem update_storage_field_needs_a_number (d : Database) (t : clock)
    (req : body) (field : string) :
  json_get "field_name" req = JString field ->
  In field numeric_fields ->
  (forall s, json_get "value" req = JString s -> float_of_str s = None ->
     update_storage_field (Some d) t req
     = {| world := Some d; flashed := [];
          reply := Jsonify (JsonError InvalidNumericValue) |})
  /\ (json_get "value" req = JNull ->
        update_storage_field (Some d) t req
        = {| world := Some d; flashed := [];
             reply := Jsonify (JsonError (Str TypeError)) |}).
Proof.
  intros Hfield Hnum.
  assert (Hallowed : member (JString field) allowed_fields = true).
  { simpl in Hnum. destruct Hnum as [<-|[<-|[<-|[]]]]; reflexivity. }
  assert (Hnumeric : member (JString field) numeric_fields = true).
  { apply member_In. now exists field. }
  unfold update_storage_field, convert. rewrite Hfield, Hallowed, Hnumeric.
  simpl. split.
  - intros s Hs Hbad. rewrite Hs. simpl. rewrite Hbad. reflexivity.
  - intros Hnull. rewrite Hnull. reflexivity.
Qed.

(** X15. [update_storage_field] on the price of a stored crop, with a number
    as new price: when the number differs from the stored price, one row is
    appended to [price_history] with the crop, the new price and the date of
    the request; when it equals the stored price, the price history is as it
    was.  Either way the rows of the crop hold the new price afterwards. *)
Theorem update_storage_field_logs_the_price (d : Database) (t : clock)
    (req : body) (crop : string) (x : float) (old : CropStorage.row) :
  json_get "crop_name" req = JString crop ->
  json_get "field_name" req = JString "current_market_price" ->
  py_float (json_get "value" req) = Ok x ->
  is_nan x = false ->
  fetchone (sql_select (named (Some crop)) (crop_storage d)) = Some old ->
  exists after,
    world (update_storage_field (Some d) t req) = Some after
    /\ (py_ne (CropStorage.current_market_price old) x = true ->
          exists row,
            inserted (price_history d) (price_history after) row
            /\ PriceHistory.crop_name row = crop
            /\ PriceHistory.price row = x
            /\ PriceHistory.price_date row = today t)
    /\ (py_ne (CropStorage.current_market_price old) x = false ->
          price_history after = price_history d)
    /\ (forall r, In r (crop_storage after) -> CropStorage.crop_name r = crop ->
          CropStorage.current_market_price r = Some x).
Proof.
  intros Hcrop Hfield Hx Hnan Hold.
  destruct (update_storage_statements d t (JString crop)
              "current_market_price" (Numeric x)) as [[after read]|e] eqn:Hst.
  - destruct (price_change_is_logged d after t crop x old read Hold Hst)
      as [Hlog Hsame].
    exists after. split.
    { unfold update_storage_field, convert. rewrite Hfield, Hcrop. simpl.
      rewrite Hx. simpl. cbv zeta. rewrite Hst. reflexivity. }
    split; [assumption|]. split; [assumption|].
    intros r Hr Hname.
    unfold update_storage_statements in Hst. simpl in Hst.
    rewrite Hold in Hst.
    assert (Hrows : crop_storage after
                    = sql_update (named (Some crop))
                        (set_field "current_market_price" (sql_real x) None
                           (Some (now t))) (crop_storage d)).
    { destruct (py_ne _ x); simpl in Hst.
      - unfold insert_price in Hst. simpl in Hst.
        unfold sql_real in Hst at 1. rewrite Hnan in Hst. simpl in Hst.
        inversion Hst; subst. reflexivity.
      - inversion Hst; subst. reflexivity. }
    rewrite Hrows in Hr. unfold sql_update in Hr. apply in_map_iff in Hr.
    destruct Hr as (r0 & Hr0 & _).
    destruct (named (Some crop) r0) eqn:E; subst r.
    + simpl. unfold sql_real. now rewrite Hnan.
    + exfalso. unfold named, text_eq in E. apply String.eqb_neq in E.
      now apply E.
  - exfalso. unfold update_storage_statements in Hst. simpl in Hst.
    rewrite Hold in Hst.
    destruct (py_ne _ x); simpl in Hst; [|discriminate].
    unfold insert_price in Hst. simpl in Hst.
    unfold sql_real in Hst at 1. rewrite Hnan in Hst. simpl in Hst.
    discriminate.
Qed.

(** ** Storage: the edit page *)

Lemma edit_crop_storage_post_written (d after : Database) (t : clock)
    (crop_name : string) (f : form) :
  edit_crop_storage_post d t crop_name f = Ok after ->
  exists quantity capacity price,
    form_float "quantity_stored" (Ok 0%float) f = Ok quantity
    /\ form_float "storage_capacity" (Ok 1000%float) f = Ok capacity
    /\ form_float "current_market_price" (Ok 0%float) f = Ok price
    /\ crop_storage after
       = sql_update (named (Some crop_name))
           (edited (sql_real quantity) (sql_real capacity) (sql_real price)
              (form_text "sale_location" f) (form_text "notes" f) t)
           (crop_storage d)
    /\ match fetchone (sql_select (named (Some crop_name)) (crop_storage d)) with
       | Some old =>
         if py_ne (CropStorage.current_market_price old) price
         then exists row,
                inserted (price_history d) (price_history after) row
                /\ PriceHistory.crop_name row = crop_name
                /\ PriceHistory.price row = price
                /\ PriceHistory.sale_location row = form_text "sale_location" f
                /\ PriceHistory.price_date row = today t
         else price_history after = price_history d
       | None => price_history after = price_history d
       end
    /\ sale_locations after = sale_locations d
    /\ planting_records after = planting_records d
    /\ harvest_records after = harvest_records d.
Proof.
  intros H. unfold edit_crop_storage_post in H. cbv zeta in H.
  invert_ok H. inversion H; subst; clear H.
  do 3 eexists. repeat (split; [reflexivity|]).
  match goal with
  | Hc : match fetchone ?rows with _ => _ end = Ok _ |- _ =>
    destruct (fetchone rows) as [old|]
  end.
  - destruct (py_ne _ _).
    + match goal with
      | Hc : insert_price_at _ _ _ _ _ = Ok _ |- _ =>
        unfold insert_price_at in Hc; cbn [bind] in Hc
      end.
      match goal with
      | Hc : bind (not_null (sql_real ?x)) _ = Ok _ |- _ =>
        destruct (not_null (sql_real x)) as [y|] eqn:Hy; cbn [bind] in Hc;
        [apply stored_number in Hy; destruct Hy as [-> _];
         inversion Hc; subst; clear Hc | discriminate Hc]
      end.
      simpl. split; [reflexivity|]. split; [|repeat split].
      eexists. repeat split.
    + match goal with
      | Hc : Ok _ = Ok _ |- _ => inversion Hc; subst; clear Hc
      end.
      repeat split.
  - match goal with
    | Hc : Ok _ = Ok _ |- _ => inversion Hc; subst; clear Hc
    end.
    repeat split.
Qed.

(** A storage edit that succeeded ran its statements to the end, and what
    they wrote is what the handler committed. *)
Lemma stored_post (d after : Database) (t : clock) (crop_name : string)
    (f : form) :
  stored d t crop_name f after ->
  edit_crop_storage_post d t crop_name f = Ok after.
Proof.
  unfold stored, edit_crop_storage. simpl.
  destruct (edit_crop_storage_post d t crop_name f) as [conn|e]; simpl.
  - intros H. inversion H. reflexivity.
  - destruct (fetchone _); intros H; inversion H.
Qed.

(** X16. A storage edit that the handler commits, flashing that the crop was
    updated, overwrites, on the rows of the crop, the quantity, capacity,
    price, sale location and notes with the values of the form, and dates
    them; a field the form leaves out is overwritten too: the quantity and
    the price with 0, the capacity with 1000, the location and the notes with
    the empty text.  Every other row of the committed storage table is as it
    was. *)
Theorem edit_overwrites_the_crop (d after : Database) (t : clock)
    (crop_name : string) (f : form) :
  stored d t crop_name f after ->
  exists quantity capacity price,
    form_float "quantity_stored" (Ok 0%float) f = Ok quantity
    /\ form_float "storage_capacity" (Ok 1000%float) f = Ok capacity
    /\ form_float "current_market_price" (Ok 0%float) f = Ok price
    /\ (lookup "quantity_stored" f = None -> quantity = 0%float)
    /\ (lookup "storage_capacity" f = None -> capacity = 1000%float)
    /\ (lookup "current_market_price" f = None -> price = 0%float)
    /\ Forall2
         (fun r r' =>
            (CropStorage.crop_name r = crop_name ->
               CropStorage.quantity_stored r' = sql_real quantity
               /\ CropStorage.storage_capacity r' = sql_real capacity
               /\ CropStorage.current_market_price r' = sql_real price
               /\ CropStorage.sale_location r'
                  = Some match lookup "sale_location" f with
                         | Some s => s
                         | None => ""
                         end
               /\ CropStorage.notes r'
                  = Some match lookup "notes" f with
                         | Some s => s
                         | None => ""
                         end
               /\ CropStorage.last_price_update r' = Some (today t)
               /\ CropStorage.updated_date r' = Some (now t)
               /\ CropStorage.crop_name r' = crop_name
               /\ CropStorage.storage_id r' = CropStorage.storage_id r)
            /\ (CropStorage.crop_name r <> crop_name -> r' = r))
         (crop_storage d) (crop_storage after).
Proof.
  intros H. apply stored_post in H.
  destruct (edit_crop_storage_post_written _ _ _ _ _ H)
    as (quantity & capacity & price & Hq & Hc & Hp & Hrows & _).
  exists quantity, capacity, price.
  repeat (split; [assumption|]).
  split; [|split; [|split]].
  - intros E. unfold form_float in Hq. rewrite E in Hq. now inversion Hq.
  - intros E. unfold form_float in Hc. rewrite E in Hc. now inversion Hc.
  - intros E. unfold form_float in Hp. rewrite E in Hp. now inversion Hp.
  - rewrite Hrows. eapply Forall2_impl; [|apply sql_update_Forall2].
    intros r r' Hr. simpl in Hr. unfold named, text_eq in Hr.
    destruct (String.eqb_spec (CropStorage.crop_name r) crop_name) as [E|E];
      subst r'.
    + split; [intros _ | intros N; contradiction].
      unfold form_text. simpl.
      repeat split; try assumption;
        destruct (lookup _ f); reflexivity.
    + split; [intros N; contradiction | reflexivity].
Qed.

(** X17. [edit_crop_storage] does not look the crop up before it writes: a
    POST for a crop that is not stored, with a form whose numbers read,
    changes nothing and still flashes that the crop was updated, while a GET
    for the same crop answers ['Crop not found!']. *)
Theorem edit_of_a_crop_not_stored (d : Database) (t : clock)
    (crop_name : string) (f : form) (quantity capacity price : float) :
  (forall r, In r (crop_storage d) -> CropStorage.crop_name r <> crop_name) ->
  form_float "quantity_stored" (Ok 0%float) f = Ok quantity ->
  form_float "storage_capacity" (Ok 1000%float) f = Ok capacity ->
  form_float "current_market_price" (Ok 0%float) f = Ok price ->
  edit_crop_storage (Some d) t POST crop_name f
  = {| file := Some d; notes := [inr (StorageUpdated crop_name)];
       answer := Dashboard |}
  /\ edit_crop_storage (Some d) t GET crop_name f
     = {| file := Some d; notes := [inr CropNotFound]; answer := Dashboard |}.
Proof.
  intros Hnone Hq Hc Hp.
  assert (Hsel : forall r, In r (crop_storage d) ->
                   named (Some crop_name) r = false).
  { intros r Hr. unfold named, text_eq. apply String.eqb_neq.
    now apply Hnone. }
  unfold edit_crop_storage, edit_crop_storage_post. simpl.
  rewrite Hq, Hc, Hp. simpl.
  rewrite (sql_select_none _ _ Hsel). simpl.
  rewrite (sql_update_none _ _ _ Hsel), set_crop_storage_same.
  split; reflexivity.
Qed.

(** X18. A storage edit that the handler commits logs the price when it
    differs from the stored price of the crop: the committed [price_history]
    has one more row, with the crop, the new price, the sale location of the
    form and the date of the request.  When the price is the stored one, or
    the crop is not stored, the committed price history is as it was. *)
Theorem edit_logs_the_price (d after : Database) (t : clock)
    (crop_name : string) (f : form) :
  stored d t crop_name f after ->
  exists price,
    form_float "current_market_price" (Ok 0%float) f = Ok price
    /\ (forall old,
          fetchone (sql_select (named (Some crop_name)) (crop_storage d))
          = Some old ->
          (py_ne (CropStorage.current_market_price old) price = true ->
             exists row,
               inserted (price_history d) (price_history after) row
               /\ PriceHistory.crop_name row = crop_name
               /\ PriceHistory.price row = price
               /\ PriceHistory.sale_location row = form_text "sale_location" f
               /\ PriceHistory.price_date row = today t)
          /\ (py_ne (CropStorage.current_market_price old) price = false ->
                price_history after = price_history d))
    /\ (fetchone (sql_select (named (Some crop_name)) (crop_storage d)) = None ->
          price_history after = price_history d).
Proof.
  intros H. apply stored_post in H.
  destruct (edit_crop_storage_post_written _ _ _ _ _ H)
    as (quantity & capacity & price & _ & _ & Hp & _ & Hlog & _).
  exists price. split; [assumption|]. split.
  - intros old Hold. rewrite Hold in Hlog.
    destruct (py_ne _ price); split; intros E; try discriminate; assumption.
  - intros Hnone. now rewrite Hnone in Hlog.
Qed.

(** ** Operations *)

Lemma sql_select_all_kept {R : Type} (where_ : R -> bool) (t : list R) :
  (forall r, In r t -> where_ r = true) -> filter where_ t = t.
Proof.
  induction t as [|r t IH]; simpl; intros H; [reflexivity|].
  rewrite (H r (or_introl eq_refl)). f_equal. apply IH.
  intros r' Hr'. apply H. now right.
Qed.

(** X19. [delete_operation] deletes the operations of the given identifier
    and no other row, and flashes its success also when there is none, in
    which case the database is as it was; deleting again changes nothing
    more.  Each of the nine other tables is as it was. *)
Theorem delete_operation_removes (d : Database) (operation_id : Z) :
  exists after,
    delete_operation (Some d) operation_id
    = {| file := Some after; notes := [inr OperationDeleted];
         answer := Redirect "operations_list" None |}
    /\ (forall o, In o (field_operations after) <->
          In o (field_operations d)
          /\ FieldOperations.operation_id o <> operation_id)
    /\ ((forall o, In o (field_operations d) ->
           FieldOperations.operation_id o <> operation_id) -> after = d)
    /\ file (delete_operation (Some after) operation_id) = Some after
    /\ fields after = fields d
    /\ crop_seasons after = crop_seasons d
    /\ weather_events after = weather_events d
    /\ planting_records after = planting_records d
    /\ field_maintenance after = field_maintenance d
    /\ harvest_records after = harvest_records d
    /\ crop_storage after = crop_storage d
    /\ sale_locations after = sale_locations d
    /\ price_history after = price_history d.
Proof.
  unfold delete_operation. simpl. eexists. split; [reflexivity|]. simpl.
  split; [|split; [|split; [|repeat split]]].
  - intros o. rewrite sql_delete_In. rewrite Z.eqb_neq. reflexivity.
  - intros Hnone. unfold sql_delete. rewrite sql_select_all_kept.
    + destruct d; reflexivity.
    + intros o Ho. apply negb_true_iff. apply Z.eqb_neq. now apply Hnone.
  - unfold sql_delete. rewrite (sql_select_all_kept _ (filter _ _)).
    + reflexivity.
    + intros o Ho. apply filter_In in Ho. tauto.
Qed.

(** ** Storage: the names of the sale locations *)

Lemma sorted_In (names : list string) (s : string) :
  In s (sorted names) <-> In s names.
Proof.
  unfold sorted. split.
  - apply Permutation_in. apply Permutation_sym, StringSort.Permuted_sort.
  - apply Permutation_in. apply StringSort.Permuted_sort.
Qed.

Lemma sorted_NoDup (names : list string) : NoDup names -> NoDup (sorted names).
Proof. apply Permutation_NoDup. apply StringSort.Permuted_sort. Qed.

(** The loop that appends the missing defaults, for any list of defaults. *)
Lemma append_missing_In (defaults names : list string) (s : string) :
  In s (fold_left
          (fun names default =>
             if existsb (String.eqb default) names
             then names
             else (names ++ [default])%list)
          defaults names)
  <-> In s names \/ In s defaults.
Proof.
  revert names. induction defaults as [|x defaults IH]; intros names; simpl.
  - tauto.
  - rewrite IH. destruct (existsb (String.eqb x) names) eqn:E.
    + apply existsb_exists in E. destruct E as (y & Hy & E).
      apply String.eqb_eq in E. subst y.
      split; [tauto|]. intros [H|[<-|H]]; auto.
    + rewrite in_app_iff. simpl. tauto.
Qed.

Lemma append_missing_NoDup (defaults names : list string) :
  NoDup names ->
  NoDup (fold_left
           (fun names default =>
              if existsb (String.eqb default) names
              then names
              else (names ++ [default])%list)
           defaults names).
Proof.
  revert names. induction defaults as [|x defaults IH]; intros names Hn; simpl.
  - assumption.
  - apply IH. destruct (existsb (String.eqb x) names) eqn:E; [assumption|].
    apply NoDup_app; [assumption| |].
    + constructor; [simpl; tauto | constructor].
    + intros y Hy [Exy|[]]. subst y.
      assert (existsb (String.eqb x) names = true).
      { apply existsb_exists. exists x. split; [assumption|].
        apply String.eqb_refl. }
      congruence.
Qed.

(** X20. [get_sale_locations] lists exactly the thirteen default names and
    the sale locations of the stored crops that are neither NULL nor empty;
    it writes nothing. *)
Theorem get_sale_locations_lists (d : Database) :
  exists names,
    get_sale_locations (Some d)
    = {| file := Some d; notes := []; answer := Locations names |}
    /\ forall s,
         In s names <->
         In s default_locations
         \/ (s <> ""
             /\ exists c, In c (crop_storage d)
                  /\ CropStorage.sale_location c = Some s).
Proof.
  unfold get_sale_locations. simpl. eexists. split; [reflexivity|].
  intros s. rewrite sorted_In. unfold add_defaults.
  rewrite append_missing_In, sorted_In. unfold distinct. rewrite nodup_In.
  unfold non_null. rewrite in_flat_map.
  split.
  - intros [H|H]; [right | now left].
    destruct H as (v & Hv & Hs). apply in_map_iff in Hv.
    destruct Hv as (c & Hc & Hin). apply sql_select_In in Hin.
    destruct Hin as [Hin Hloc]. unfold has_location in Hloc. subst v.
    destruct (CropStorage.sale_location c) as [x|] eqn:E; [|discriminate].
    destruct Hs as [Exs|[]]. subst x.
    apply negb_true_iff, String.eqb_neq in Hloc.
    split; [assumption|]. now exists c.
  - intros [H|H]; [now right | left].
    destruct H as (Hne & c & Hc & Hloc). exists (Some s).
    split; [|now left]. apply in_map_iff. exists c. split; [assumption|].
    apply sql_select_In. split; [assumption|]. unfold has_location.
    rewrite Hloc. now apply negb_true_iff, String.eqb_neq.
Qed.

(** X21. The list [get_sale_locations] answers with is in ascending order and
    names no location twice. *)
Theorem get_sale_locations_sorted (d : Database) :
  exists names,
    answer (get_sale_locations (Some d)) = Locations names
    /\ Sorted (fun x y => String.leb x y = true) names
    /\ NoDup names.
Proof.
  unfold get_sale_locations. simpl. eexists. split; [reflexivity|]. split.
  - apply StringSort.Sorted_sort.
  - apply sorted_NoDup. unfold add_defaults. apply append_missing_NoDup.
    apply sorted_NoDup. unfold distinct. apply NoDup_nodup.
Qed.

(** ** Maintenance *)

Lemma maintained_post (d after : Database) (planting_id : Z) (f : form) :
  maintained d planting_id f after ->
  exists planting maintenance_type,
    select_planting_row d planting_id = Some planting
    /\ add_maintenance_post d planting_id planting f
       = Ok (after, maintenance_type).
Proof.
  unfold maintained, add_maintenance. simpl.
  destruct (select_planting_row d planting_id) as [planting|]; simpl.
  - destruct (add_maintenance_post d planting_id planting f)
      as [[conn maintenance_type]|e] eqn:E; simpl.
    + intros [Hw _]. inversion Hw; subst.
      exists planting, maintenance_type. now split.
    + intros [_ Hr]. discriminate.
  - intros [_ Hr]. discriminate.
Qed.

Lemma add_maintenance_post_written (d after : Database) (planting_id : Z)
    (planting : PlantingRecords.row) (f : form) (maintenance_type : string) :
  add_maintenance_post d planting_id planting f = Ok (after, maintenance_type) ->
  exists date labor equipment material fuel row,
    lookup "maintenance_date" f = Some date
    /\ lookup "maintenance_type" f = Some maintenance_type
    /\ form_float "labor_cost" (Ok 0%float) f = Ok labor
    /\ form_float "equipment_cost" (Ok 0%float) f = Ok equipment
    /\ form_float "material_cost" (Ok 0%float) f = Ok material
    /\ form_float "fuel_cost" (Ok 0%float) f = Ok fuel
    /\ inserted (field_maintenance d) (field_maintenance after) row
    /\ FieldMaintenance.planting_id row = Some planting_id
    /\ FieldMaintenance.field_id row = PlantingRecords.field_id planting
    /\ FieldMaintenance.maintenance_date row = date
    /\ FieldMaintenance.maintenance_type row = maintenance_type
    /\ FieldMaintenance.total_cost row
       = sql_real (labor + equipment + material + fuel)
    /\ planting_records after = planting_records d
    /\ fields after = fields d
    /\ harvest_records after = harvest_records d
    /\ crop_storage after = crop_storage d.
Proof.
  intros H. unfold add_maintenance_post in H. cbv zeta in H.
  invert_ok H. inversion H; subst; clear H.
  repeat match goal with
         | Hn : not_null _ = Ok _ |- _ => apply stored_text in Hn
         end.
  do 6 eexists. repeat (split; [eassumption|]). repeat split.
Qed.

(** The planting of [add_harvest] is the planting of [add_maintenance], with
    its maintenance costs. *)
Lemma select_planting_of_row (d : Database) (planting_id : Z) :
  select_planting d planting_id
  = option_map (fun p => (p, maintenance_costs d (PlantingRecords.planting_id p)))
      (select_planting_row d planting_id).
Proof.
  unfold select_planting, select_planting_row. rewrite <- fetchone_map.
  f_equal. induction (sql_select _ (planting_records d)) as [|p l IH]; simpl.
  - reflexivity.
  - rewrite map_app, IH, map_map. reflexivity.
Qed.

Lemma select_planting_row_found (d : Database) (planting_id : Z)
    (planting : PlantingRecords.row) :
  select_planting_row d planting_id = Some planting ->
  In planting (planting_records d)
  /\ PlantingRecords.planting_id planting = planting_id.
Proof.
  unfold select_planting_row. intros H. apply fetchone_In in H.
  apply in_flat_map in H. destruct H as [p [Hp H]].
  apply sql_select_In in Hp. destruct Hp as [Hp Hid]. apply Z.eqb_eq in Hid.
  apply in_map_iff in H. destruct H as [fd [E _]]. subst. auto.
Qed.

(** X22. A maintenance submission that goes through appends one row tied to
    the planting, whose total cost is the sum of the labor, equipment,
    material and fuel costs of the form; from then on [add_harvest] reads,
    as maintenance costs of the planting, the sum over the rows tied to it
    before and this row, and a harvest that goes through stores total costs
    made of the planting cost, that sum and the harvest cost. *)
Theorem maintenance_is_counted (d after : Database) (planting_id : Z) (f : form) :
  maintained d planting_id f after ->
  exists planting labor equipment material fuel row,
    In planting (planting_records d)
    /\ PlantingRecords.planting_id planting = planting_id
    /\ form_float "labor_cost" (Ok 0%float) f = Ok labor
    /\ form_float "equipment_cost" (Ok 0%float) f = Ok equipment
    /\ form_float "material_cost" (Ok 0%float) f = Ok material
    /\ form_float "fuel_cost" (Ok 0%float) f = Ok fuel
    /\ inserted (field_maintenance d) (field_maintenance after) row
    /\ FieldMaintenance.planting_id row = Some planting_id
    /\ FieldMaintenance.field_id row = PlantingRecords.field_id planting
    /\ FieldMaintenance.total_cost row
       = sql_real (labor + equipment + material + fuel)
    /\ select_planting after planting_id
       = Some (planting,
               sql_sum
                 (map FieldMaintenance.total_cost
                    (sql_select
                       (fun m => match FieldMaintenance.planting_id m with
                                 | Some p => Z.eqb p planting_id
                                 | None => false
                                 end)
                       (field_maintenance d))
                  ++ [sql_real (labor + equipment + material + fuel)]))
    /\ forall f' after',
         harvested after planting_id f' after' ->
         exists planting_cost harvest_cost harvest,
           PlantingRecords.total_planting_cost planting = Some planting_cost
           /\ inserted (harvest_records after) (harvest_records after') harvest
           /\ HarvestRecords.total_harvest_cost harvest = sql_real harvest_cost
           /\ HarvestRecords.total_costs harvest
              = sql_real
                  (planting_cost
                   + or_zero
                       (sql_sum
                          (map FieldMaintenance.total_cost
                             (sql_select
                                (fun m =>
                                   match FieldMaintenance.planting_id m with
                                   | Some p => Z.eqb p planting_id
                                   | None => false
                                   end)
                                (field_maintenance d))
                           ++ [sql_real (labor + equipment + material + fuel)]))
                   + harvest_cost).
Proof.
  intros Hm.
  destruct (maintained_post _ _ _ _ Hm) as (planting & mtype & Hsel & Hpost).
  destruct (select_planting_row_found _ _ _ Hsel) as [Hin Hid].
  destruct (add_maintenance_post_written _ _ _ _ _ _ Hpost)
    as (date & labor & equipment & material & fuel & row & _ & _ & Hl & He
        & Hma & Hfu & Hins & Hrp & Hrf & _ & _ & Hrt & Hp & Hf & _).
  assert (Hsel' : select_planting after planting_id
                  = Some (planting,
                          sql_sum
                            (map FieldMaintenance.total_cost
                               (sql_select
                                  (fun m =>
                                     match FieldMaintenance.planting_id m with
                                     | Some p => Z.eqb p planting_id
                                     | None => false
                                     end)
                                  (field_maintenance d))
                             ++ [sql_real (labor + equipment + material + fuel)]))).
  { rewrite select_planting_of_row.
    replace (select_planting_row after planting_id)
      with (select_planting_row d planting_id)
      by (unfold select_planting_row; now rewrite Hp, Hf).
    rewrite Hsel. simpl. rewrite Hid. unfold maintenance_costs.
    unfold inserted in Hins. rewrite Hins. unfold sql_select.
    rewrite filter_app, map_app. simpl. rewrite Hrp, Z.eqb_refl. simpl.
    now rewrite Hrt. }
  exists planting, labor, equipment, material, fuel, row.
  repeat (split; [assumption|]).
  intros f' after' Hh.
  destruct (harvested_post _ _ _ _ Hh)
    as (planting' & maintenance & profit & roi & Hsel2 & Hpost2).
  rewrite Hsel' in Hsel2. inversion Hsel2; subst planting' maintenance.
  destruct (add_harvest_post_written _ _ _ _ _ _ _ _ Hpost2)
    as (date' & total_yield & area & market_price & premium & hlabor & hequip
        & hfuel & transport & drying & storage & other & planting_cost & harvest
        & _ & _ & _ & _ & _ & _ & _ & _ & _ & _ & _ & Hcost & Hins2
        & _ & _ & _ & _ & _ & Hharvest & _ & Hcosts & _).
  exists planting_cost. eexists. exists harvest.
  split; [assumption|]. split; [assumption|]. split; eassumption.
Qed.

(** X23. A maintenance form without [maintenance_date] or without
    [maintenance_type] is refused with an error and the database is as it
    was; and for a planting that is not found nothing is read from the form
    at all. *)
Theorem maintenance_needs_date_and_type (d : Database) (planting_id : Z)
    (f : form) :
  (select_planting_row d planting_id = None ->
     forall method,
       add_maintenance (Some d) method planting_id f
       = {| file := Some d; notes := [inl PlantingNotFound];
            answer := Redirect "planting_dashboard" None |})
  /\ (forall planting,
        select_planting_row d planting_id = Some planting ->
        lookup "maintenance_date" f = None
        \/ lookup "maintenance_type" f = None ->
        exists e,
          add_maintenance (Some d) POST planting_id f
          = {| file := Some d; notes := [inr (ErrorAddingMaintenance e)];
               answer := Render "maintenance/add.html" |}).
Proof.
  split.
  - intros Hnone method. unfold add_maintenance. simpl. now rewrite Hnone.
  - intros planting Hsel Hmiss. unfold add_maintenance. simpl. rewrite Hsel.
    destruct (add_maintenance_post d planting_id planting f)
      as [[after mtype]|e] eqn:H.
    + destruct (add_maintenance_post_written _ _ _ _ _ _ H)
        as (date & ? & ? & ? & ? & ? & Hd & Ht & _).
      destruct Hmiss as [E|E]; congruence.
    + now exists e.
Qed.

(** ** Field deletion: what is removed *)

(** X24. [delete_field] on the identifier of a field deletes the field and
    every season, operation and weather event of the field, and flashes the
    name of the field. *)
Theorem delete_field_removes_the_field (d : Database) (fd : Fields.row) :
  In fd (fields d) ->
  exists after name,
    delete_field (Some d) (Fields.field_id fd)
    = {| world := Some after; flashed := [FieldDeleted name];
         reply := Redirect "fields_list" None |}
    /\ (exists first, In first (fields d)
          /\ Fields.field_id first = Fields.field_id fd
          /\ Fields.field_name first = name)
    /\ (forall r, In r (fields after) ->
          Fields.field_id r <> Fields.field_id fd)
    /\ (forall r, In r (crop_seasons after) ->
          CropSeasons.field_id r <> Fields.field_id fd)
    /\ (forall r, In r (field_operations after) ->
          FieldOperations.field_id r <> Fields.field_id fd)
    /\ (forall r, In r (weather_events after) ->
          WeatherEvents.field_id r <> Fields.field_id fd).
Proof.
  intros Hin.
  destruct (delete_field_clears d (Fields.field_id fd) fd Hin eq_refl)
    as (after & Hw & Hclear).
  unfold delete_field in *. simpl in *.
  destruct (fetchone _) as [first|] eqn:Hsel; simpl in *.
  - inversion Hw; subst after. eexists. eexists. split; [reflexivity|].
    split; [|exact Hclear].
    apply fetchone_In, sql_select_In in Hsel. destruct Hsel as [H1 H2].
    apply String.eqb_eq in H2. exists first. auto.
  - exfalso. apply fetchone_none in Hsel.
    assert (Hf : In fd (sql_select
                          (fun r => String.eqb (Fields.field_id r)
                                      (Fields.field_id fd)) (fields d))).
    { apply sql_select_In. split; [assumption|]. apply String.eqb_refl. }
    rewrite Hsel in Hf. contradiction.
Qed.

End Handlers.

(** ** The handlers on the small farm *)

(** C4. [update_storage_field] logs the change of the wheat price from 220 to
    200 in [price_history]; the harvest of the wheat planting sold at 200
    makes the same change of [current_market_price] and leaves
    [price_history] empty. *)
Theorem harvest_overwrites_price_without_history :
  map CropStorage.current_market_price (crop_storage farm) = [Some 220%float]
  /\ price_history farm = []
  /\ (exists after,
        world (update_storage_field digits_float unrendered unrounded (Some farm)
                 noon [("crop_name", JString "Wheat");
                       ("field_name", JString "current_market_price");
                       ("value", JNumber 200)]) = Some after
        /\ map CropStorage.current_market_price (crop_storage after)
           = [Some 200%float]
        /\ map PriceHistory.price (price_history after) = [200%float])
  /\ (exists after,
        harvested digits_float farm 1 wheat_harvest after
        /\ map CropStorage.current_market_price (crop_storage after)
           = [Some 200%float]
        /\ price_history after = []).
Proof.
  split; [reflexivity|]. split; [reflexivity|]. split.
  - eexists. split; [reflexivity|]. split; reflexivity.
  - eexists. split; [split; reflexivity|]. split; reflexivity.
Qed.


(** The same harvest stores a gross revenue of 10500, total costs of 1200, a
    net profit of 9300, a return of 775 percent and a break-even price of 24. *)
Lemma wheat_harvest_revenue_and_profit :
  exists after,
    harvested digits_float farm 1 wheat_harvest after
    /\ exists row,
         inserted (harvest_records farm) (harvest_records after) row
         /\ HarvestRecords.gross_revenue row = Some 10500%float
         /\ HarvestRecords.total_costs row = Some 1200%float
         /\ HarvestRecords.net_profit row = Some 9300%float
         /\ HarvestRecords.roi_percent row = Some 775%float
         /\ HarvestRecords.break_even_price row = Some 24%float.
Proof.
  eexists. split; [split; reflexivity|].
  destruct (harvest_revenue_and_profit digits_float farm _ 1 wheat_harvest
              (conj eq_refl eq_refl))
    as (total_yield & market_price & premium & costs & row & _ & _ & _
        & Hins & _).
  exists row. split; [exact Hins|].
  vm_compute in Hins. inversion Hins; subst. repeat split.
Defined.


(** The barley planting goes through and stores a total of 180, and 18 per
    hectare. *)
Lemma barley_planting_costs :
  exists after,
    planted digits_float farm barley_planting after
    /\ exists row,
         inserted (planting_records farm) (planting_records after) row
         /\ PlantingRecords.total_planting_cost row = Some 180%float
         /\ PlantingRecords.cost_per_hectare row = Some 18%float.
Proof.
  eexists. split; [split; reflexivity|].
  destruct (planting_costs_are_summed digits_float farm _ barley_planting
              (conj eq_refl eq_refl))
    as (area & seed & fertilizer & lime & labor & equipment & fuel & other
        & row & _ & _ & _ & _ & _ & _ & _ & _ & Hins & _).
  exists row. split; [exact Hins|].
  vm_compute in Hins. inversion Hins; subst. split; reflexivity.
Defined.

(** The grain elevator, where the wheat is sold, is not deleted. *)
Lemma grain_elevator_is_kept :
  NoDup (map SaleLocations.location_id (sale_locations farm))
  /\ in_use farm grain_elevator
  /\ exists after,
       world (delete_location (Some farm) 1) = Some after
       /\ In grain_elevator (sale_locations after).
Proof.
  assert (Hkey : NoDup (map SaleLocations.location_id (sale_locations farm))).
  { simpl. constructor.
    - simpl. intros [H|[]]. discriminate H.
    - constructor; [simpl; tauto | constructor]. }
  assert (Huse : in_use farm grain_elevator).
  { exists wheat_storage. split; [now left | reflexivity]. }
  split; [exact Hkey|]. split; [exact Huse|].
  destruct (delete_location_keeps_locations_in_use farm 1 Hkey)
    as (after & Hw & _ & Hkeep & _).
  exists after. split; [exact Hw|].
  apply Hkeep; [now left | exact Huse].
Defined.

(** A request on a field outside the allow-list is rejected. *)
Lemma quinoa_price_is_rejected :
  (forall s, In s allowed_fields -> json_get "field_name" quinoa_price <> JString s)
  /\ update_storage_field digits_float unrendered unrounded (Some farm) noon
       quinoa_price
     = {| world := Some farm; flashed := [];
          reply := Jsonify (JsonError InvalidField) |}.
Proof.
  assert (H : forall s, In s allowed_fields ->
                json_get "field_name" quinoa_price <> JString s).
  { intros s Hs E. vm_compute in E. inversion E; subst.
    simpl in Hs. intuition discriminate. }
  split; [exact H|].
  exact (proj1 (update_storage_field_allow_list digits_float unrendered
                  unrounded (Some farm) noon quinoa_price) H).
Defined.



(** On 100 of costs and an area of minus 5 the cost per hectare is 0, and
    the quotient is minus 20: a denominator that is not zero, and a result
    that is not the quotient. *)
Lemma negative_area_is_not_divided :
  (-5 =? 0)%float = false
  /\ cost_per_hectare 100 (-5) = Ok 0%float
  /\ (100 / -5)%float = (-20)%float
  /\ cost_per_hectare 100 (-5) <> Ok (100 / -5)%float.
Proof.
  repeat split. vm_compute. intros E. inversion E.
Qed.

(** The guard at a denominator of zero. *)
Lemma zero_is_guarded :
  (0 =? 0)%float = true
  /\ gt0 0 = false
  /\ roi_percent 9300 0 = Ok 0%float.
Proof.
  destruct (divisions_are_guarded digits_float 9300 0)
    as (_ & _ & _ & Hroi & _ & Hzero & _).
  split; [reflexivity|]. split.
  - apply Hzero. reflexivity.
  - exact Hroi.
Defined.

(** ** More runs on the small farm *)

(** The farm has no field F404. *)
Lemma no_field_f404 :
  (forall f, In f (fields farm) -> Fields.field_id f <> "F404")
  /\ world (delete_field (Some farm) "F404") = Some farm.
Proof.
  assert (H : forall f, In f (fields farm) -> Fields.field_id f <> "F404").
  { intros f [<-|[]]. discriminate. }
  split; [exact H|].
  now rewrite (delete_field_unknown farm "F404" H).
Defined.

(** Deleting field F001 leaves the planting and the wheat row. *)
Lemma deleting_f001_keeps_the_rest :
  exists after,
    world (delete_field (Some farm) "F001") = Some after
    /\ planting_records after = [wheat_planting]
    /\ crop_storage after = [wheat_storage].
Proof.
  eexists. split; [reflexivity|].
  destruct (delete_field_keeps_the_rest farm _ "F001" eq_refl)
    as (_ & _ & _ & _ & Hp & _ & _ & Hc & _).
  split; [exact Hp | exact Hc].
Defined.

(** The rice mill, where nothing is sold, is deleted. *)
Lemma rice_mill_is_deleted :
  NoDup (map SaleLocations.location_id (sale_locations farm))
  /\ ~ in_use farm rice_mill
  /\ exists after,
       world (delete_location (Some farm) 3) = Some after
       /\ sale_locations after = [grain_elevator].
Proof.
  assert (Hkey : NoDup (map SaleLocations.location_id (sale_locations farm))).
  { simpl. constructor.
    - simpl. intros [H|[]]. discriminate H.
    - constructor; [simpl; tauto | constructor]. }
  assert (Hfree : ~ in_use farm rice_mill).
  { intros (c & [<-|[]] & Hc). discriminate Hc. }
  split; [exact Hkey|]. split; [exact Hfree|].
  destruct (delete_location_removes_unused farm rice_mill Hkey
              (or_intror (or_introl eq_refl)) Hfree) as (after & Hrun & _).
  exists after. simpl in Hrun. rewrite Hrun. split; [reflexivity|].
  vm_compute in Hrun. now inversion Hrun.
Defined.

(** The farm has no sale location 7. *)
Lemma no_location_7 :
  (forall l, In l (sale_locations farm) -> SaleLocations.location_id l <> 7%Z)
  /\ flashed (delete_location (Some farm) 7) = [LocationNotFound].
Proof.
  assert (H : forall l, In l (sale_locations farm) ->
                SaleLocations.location_id l <> 7%Z).
  { intros l [<-|[<-|[]]]; discriminate. }
  split; [exact H|].
  now rewrite (delete_location_unknown farm 7 H).
Defined.

(** The wheat harvest marks the wheat planting. *)
Lemma wheat_planting_is_marked :
  exists after,
    harvested digits_float farm 1 wheat_harvest after
    /\ map PlantingRecords.status (planting_records after) = [Some "Harvested"]
    /\ field_maintenance after = [wheat_weeding].
Proof.
  eexists. split; [split; reflexivity|].
  destruct (harvest_marks_the_planting digits_float farm _ 1 wheat_harvest
              (conj eq_refl eq_refl)) as (_ & _ & _ & _ & _ & Hm & _).
  split; [reflexivity | exact Hm].
Defined.

(** An empty harvest form for the wheat planting is refused. *)
Lemma empty_harvest_is_refused :
  select_planting farm 1 = Some (wheat_planting, Some 200%float)
  /\ add_harvest digits_float (Some farm) POST 1 []
     = {| world := Some farm; flashed := [ErrorRecordingHarvest TypeError];
          reply := Render "harvest/add.html" |}.
Proof.
  split; [reflexivity|].
  exact (proj1 (harvest_needs_yield_and_date digits_float farm 1 wheat_planting
                  (Some 200%float) [] eq_refl) eq_refl).
Defined.

(** The wheat harvest submitted twice stores 100 tonnes. *)
Lemma wheat_harvested_twice :
  exists after again,
    harvested digits_float farm 1 wheat_harvest after
    /\ harvested digits_float after 1 wheat_harvest again
    /\ map CropStorage.quantity_stored (crop_storage again) = [Some 100%float].
Proof.
  eexists. eexists. split; [split; reflexivity|].
  destruct (harvest_can_be_repeated digits_float farm _ 1 wheat_harvest
              (conj eq_refl eq_refl)) as (planting & ty & again & _ & _ & _).
  split; [split; reflexivity | reflexivity].
Defined.

(** The barley planting is planting 2, and is found. *)
Lemma barley_planting_is_found :
  exists after row,
    planted digits_float farm barley_planting after
    /\ inserted (planting_records farm) (planting_records after) row
    /\ PlantingRecords.planting_id row = 2%Z
    /\ select_planting after 2 = Some (row, None).
Proof.
  eexists. eexists. split; [split; reflexivity|].
  destruct (planting_is_found digits_float farm _ barley_planting
              (conj eq_refl eq_refl)) as (row & Hins & _).
  split; [reflexivity|]. split; reflexivity.
Defined.

(** The planting on field F404 is stored, and cannot be harvested. *)
Lemma stray_planting_is_lost :
  exists after,
    planted digits_float farm stray_planting after
    /\ (forall fd, In fd (fields farm) -> Fields.field_id fd <> "F404")
    /\ List.length (planting_records after) = 2%nat
    /\ flashed (add_harvest digits_float (Some after) POST 2 wheat_harvest)
       = [PlantingNotFound].
Proof.
  eexists. split; [split; reflexivity|].
  assert (H : forall fd, In fd (fields farm) -> Fields.field_id fd <> "F404").
  { intros f [<-|[]]. discriminate. }
  split; [exact H|].
  destruct (stray_planting_is_stored digits_float farm _ stray_planting "F404"
              (conj eq_refl eq_refl) eq_refl H) as (row & _).
  split; reflexivity.
Defined.

(** An empty planting form is refused. *)
Lemma empty_planting_is_refused :
  lookup "field_id" (@nil (string * string)) = None
  /\ world (add_planting digits_float (Some farm) POST []) = Some farm.
Proof.
  split; [reflexivity|].
  destruct (planting_needs_field_crop_and_date digits_float farm []
              (or_introl eq_refl)) as [e He].
  now rewrite He.
Defined.

(** Once field F001 is deleted the wheat planting is not found. *)
Lemma wheat_planting_is_orphaned :
  exists after,
    world (delete_field (Some farm) "F001") = Some after
    /\ planting_records after = [wheat_planting]
    /\ flashed (add_harvest digits_float (Some after) POST 1 wheat_harvest)
       = [PlantingNotFound].
Proof.
  eexists. split; [reflexivity|].
  assert (Hp : forall p, In p (planting_records farm) ->
                 PlantingRecords.planting_id p = 1%Z ->
                 PlantingRecords.field_id p = "F001").
  { intros p [<-|[]] _. reflexivity. }
  destruct (harvest_after_field_deletion digits_float farm _ "F001" _ 1 POST
              wheat_harvest (or_introl eq_refl) eq_refl eq_refl Hp)
    as [Hrows Hrun].
  split; [exact Hrows|]. now rewrite Hrun.
Defined.

(** 75 tonnes of wheat at 220 are worth 16500. *)
Lemma wheat_quantity_is_set :
  exists after,
    world (update_quantity digits_float unrendered (Some farm) noon
             [("crop_name", JString "Wheat"); ("quantity", JNumber 75)])
    = Some after
    /\ map CropStorage.quantity_stored (crop_storage after) = [Some 75%float]
    /\ reply (update_quantity digits_float unrendered (Some farm) noon
                [("crop_name", JString "Wheat"); ("quantity", JNumber 75)])
       = Jsonify (JsonQuantity (Some 16500%float)).
Proof.
  destruct (update_quantity_sets_the_quantity digits_float unrendered farm noon
              [("crop_name", JString "Wheat"); ("quantity", JNumber 75)]
              "Wheat" 75 eq_refl eq_refl) as (after & Hw & _ & _ & Hreply).
  exists after. split; [exact Hw|]. split.
  - vm_compute in Hw. inversion Hw; subst. reflexivity.
  - rewrite (Hreply wheat_storage eq_refl). reflexivity.
Defined.

(** A quantity of "lots" is no number. *)
Lemma lots_is_no_number :
  digits_float "lots" = None
  /\ reply (update_storage_field digits_float unrendered unrounded (Some farm)
              noon [("crop_name", JString "Wheat");
                    ("field_name", JString "quantity_stored");
                    ("value", JString "lots")])
     = Jsonify (JsonError InvalidNumericValue).
Proof.
  split; [reflexivity|].
  rewrite (proj1 (update_storage_field_needs_a_number digits_float unrendered
                    unrounded farm noon
                    [("crop_name", JString "Wheat");
                     ("field_name", JString "quantity_stored");
                     ("value", JString "lots")]
                    "quantity_stored" eq_refl (or_introl eq_refl))
             "lots" eq_refl eq_refl).
  reflexivity.
Defined.

(** The wheat price set to 200 is logged. *)
Lemma wheat_price_is_logged :
  exists after,
    world (update_storage_field digits_float unrendered unrounded (Some farm)
             noon [("crop_name", JString "Wheat");
                   ("field_name", JString "current_market_price");
                   ("value", JNumber 200)]) = Some after
    /\ exists row,
         inserted (price_history farm) (price_history after) row
         /\ PriceHistory.price row = 200%float.
Proof.
  destruct (update_storage_field_logs_the_price digits_float unrendered
              unrounded farm noon
              [("crop_name", JString "Wheat");
               ("field_name", JString "current_market_price");
               ("value", JNumber 200)]
              "Wheat" 200 wheat_storage eq_refl eq_refl eq_refl eq_refl eq_refl)
    as (after & Hw & Hlog & _).
  exists after. split; [exact Hw|].
  destruct (Hlog eq_refl) as (row & Hins & _ & Hprice & _).
  exists row. split; assumption.
Defined.

(** The wheat row edited holds the values of the form. *)
Lemma wheat_row_is_edited :
  exists after,
    stored digits_float farm noon "Wheat" wheat_edit after
    /\ map CropStorage.quantity_stored (crop_storage after) = [Some 120%float]
    /\ map CropStorage.sale_location (crop_storage after) = [Some "Rice Mill"].
Proof.
  eexists. split; [reflexivity|].
  destruct (edit_overwrites_the_crop digits_float farm _ noon "Wheat" wheat_edit
              eq_refl) as (quantity & capacity & price & _).
  split; reflexivity.
Defined.

(** An edit of quinoa, which is not stored, is flashed as a success. *)
Lemma quinoa_edit_is_flashed :
  (forall r, In r (crop_storage farm) -> CropStorage.crop_name r <> "Quinoa")
  /\ edit_crop_storage digits_float (Some farm) noon POST "Quinoa" wheat_edit
     = {| file := Some farm; notes := [inr (StorageUpdated "Quinoa")];
          answer := Dashboard |}.
Proof.
  assert (H : forall r, In r (crop_storage farm) ->
                CropStorage.crop_name r <> "Quinoa").
  { intros r [<-|[]]. discriminate. }
  split; [exact H|].
  exact (proj1 (edit_of_a_crop_not_stored digits_float farm noon "Quinoa"
                  wheat_edit 120 2000 250 H eq_refl eq_refl eq_refl)).
Defined.

(** The edit of the wheat price to 250 is logged at the rice mill. *)
Lemma wheat_edit_is_logged :
  exists after,
    stored digits_float farm noon "Wheat" wheat_edit after
    /\ exists row,
         inserted (price_history farm) (price_history after) row
         /\ PriceHistory.price row = 250%float
         /\ PriceHistory.sale_location row = Some "Rice Mill".
Proof.
  eexists. split; [reflexivity|].
  destruct (edit_logs_the_price digits_float farm _ noon "Wheat" wheat_edit
              eq_refl) as (price & Hp & Hlog & _).
  vm_compute in Hp. inversion Hp; subst price. clear Hp.
  destruct (proj1 (Hlog wheat_storage eq_refl) eq_refl)
    as (row & Hins & _ & Hprice & Hloc & _).
  exists row. split; [exact Hins|]. split; [exact Hprice | exact Hloc].
Defined.

(** The second weeding raises the maintenance costs of the wheat planting
    from 200 to 250. *)
Lemma second_weeding_is_counted :
  exists after,
    maintained digits_float farm 1 second_weeding after
    /\ select_planting farm 1 = Some (wheat_planting, Some 200%float)
    /\ select_planting after 1 = Some (wheat_planting, Some 250%float).
Proof.
  eexists. split; [split; reflexivity|].
  destruct (maintenance_is_counted digits_float farm _ 1 second_weeding
              (conj eq_refl eq_refl)) as (planting & _).
  split; reflexivity.
Defined.

(** A weeding without a date is refused. *)
Lemma undated_weeding_is_refused :
  select_planting_row farm 1 = Some wheat_planting
  /\ file (add_maintenance digits_float (Some farm) POST 1
             [("maintenance_type", "Weeding")]) = Some farm.
Proof.
  split; [reflexivity|].
  destruct (proj2 (maintenance_needs_date_and_type digits_float farm 1
                     [("maintenance_type", "Weeding")])
              wheat_planting eq_refl (or_introl eq_refl)) as [e He].
  now rewrite He.
Defined.

(** Deleting field F001 empties the seasons, operations and weather events. *)
Lemma f001_is_removed :
  exists after,
    world (delete_field (Some farm) "F001") = Some after
    /\ fields after = [] /\ crop_seasons after = []
    /\ field_operations after = [] /\ weather_events after = [].
Proof.
  destruct (delete_field_removes_the_field farm
              {| Fields.field_id := "F001"; Fields.field_name := "North Valley";
                 Fields.size_hectares := Some 15.5%float |}
              (or_introl eq_refl)) as (after & name & Hrun & _).
  exists after. simpl in Hrun. rewrite Hrun. split; [reflexivity|].
  vm_compute in Hrun. inversion Hrun; subst. repeat split.
Defined.
